(** * token_counter/counter.py: a shallow embedding and its properties

    The program walks a directory tree, classifies every file by its
    extension and a binary sniff, extracts text from PDF and plain-text
    files, counts tokens with a tiktoken encoder and prints a summary.

    The embedding keeps the structure of the Python source:
    - Python strings are [string]s holding their UTF-8 bytes, file
      contents are [list byte];
    - the two set literals are [gset string];
    - the [stats] dictionary, whose five keys are fixed, is a record that
      is threaded through the scanning loop;
    - exceptions and [sys.exit] are a result type, and everything the
      program does to the outside (opening a file, calling the encoder,
      printing a line) is recorded in a trace carried by a small
      writer/exception monad;
    - the operating system, PyPDF2, tiktoken and numpy are not part of
      the repository: the file system and the two libraries that read
      files are fields of a [World], numpy's three reductions are
      written out. *)

From Stdlib Require Import ZArith QArith Ascii String List Lia Bool.
From Stdlib.Strings Require Import Byte.
From stdpp Require Import base decidable gmap strings list.

Import ListNotations.
Set Warnings "-register-all".
Local Open Scope string_scope.
Local Open Scope list_scope.

(** ** Python strings *)

Module PyStr.

(** [str.startswith] *)
Definition startswith (pre s : string) : bool := String.prefix pre s.

(** [str.isascii]: every character is below 128. A string of the model
    holds the UTF-8 bytes of the Python string, so this is the same as
    every code point being below 128. *)
Fixpoint isascii (s : string) : bool :=
  match s with
  | EmptyString => true
  | String c s' => Nat.ltb (nat_of_ascii c) 128 && isascii s'
  end.

(** [str.lower] of an ASCII string ([ascii_upper_or_lower] in CPython):
    the letters A to Z are lowered, nothing else changes. What
    [str.lower] does to any string is [str_lower], further down. *)
Definition lower_ascii (c : ascii) : ascii :=
  let n := nat_of_ascii c in
  if andb (Nat.leb 65 n) (Nat.leb n 90) then ascii_of_nat (n + 32) else c.

Fixpoint lower (s : string) : string :=
  match s with
  | EmptyString => EmptyString
  | String c s' => String (lower_ascii c) (lower s')
  end.

(** [str.rfind] for a one-character needle: the highest index at which
    [c] occurs in [s], counted from [i] for the head of [s]; [-1] when
    it does not occur. *)
Fixpoint rfind_from (c : ascii) (i : Z) (s : string) : Z :=
  match s with
  | EmptyString => (-1)%Z
  | String a s' =>
      let r := rfind_from c (i + 1) s' in
      if (0 <=? r)%Z then r
      else if Ascii.eqb a c then i else (-1)%Z
  end.

Definition rfind (c : ascii) (s : string) : Z := rfind_from c 0 s.

(** [s[:i]] and [s[i:]] for [0 <= i]. *)
Definition slice_to (s : string) (i : Z) : string :=
  String.substring 0 (Z.to_nat i) s.

Definition slice_from (s : string) (i : Z) : string :=
  String.substring (Z.to_nat i) (String.length s - Z.to_nat i) s.

(** [sep.join(parts)] *)
Fixpoint join (sep : string) (parts : list string) : string :=
  match parts with
  | [] => ""
  | [p] => p
  | p :: rest => p ++ sep ++ join sep rest
  end.

(** Truth value of a string: [if text:] holds for a non-empty one. *)
Definition truthy (s : string) : bool :=
  match s with EmptyString => false | String _ _ => true end.

End PyStr.

(** ** [os.path] (posixpath) *)

Module OsPath.

Definition sep : ascii := "/"%char.
Definition extsep : ascii := "."%char.

(** The loop of [genericpath._splitext] that skips leading dots: it
    looks at the [n] positions of [p] from [filenameIndex] on and stops
    at the first one that is not a dot. [true] when there is one. *)
Fixpoint has_non_dot (p : string) (filenameIndex : nat) (n : nat) : bool :=
  match n with
  | O => false
  | S n' =>
      match String.get filenameIndex p with
      | Some c =>
          if negb (Ascii.eqb c extsep) then true
          else has_non_dot p (S filenameIndex) n'
      | None => true
      end
  end.

(** [os.path.splitext]: the extension starts at the last dot of the
    last path component, unless that component has nothing but dots
    before it. *)
Definition splitext (p : string) : string * string :=
  let sepIndex := PyStr.rfind sep p in
  let dotIndex := PyStr.rfind extsep p in
  if (sepIndex <? dotIndex)%Z then
    let filenameIndex := (sepIndex + 1)%Z in
    if has_non_dot p (Z.to_nat filenameIndex)
         (Z.to_nat (dotIndex - filenameIndex))
    then (PyStr.slice_to p dotIndex, PyStr.slice_from p dotIndex)
    else (p, "")
  else (p, "").

(** [os.path.join] of two components. *)
Definition endswith_sep (a : string) : bool :=
  match String.get (String.length a - 1) a with
  | Some c => Ascii.eqb c sep
  | None => false
  end.

Definition join (a b : string) : string :=
  if PyStr.startswith "/" b then b
  else if orb (negb (PyStr.truthy a)) (endswith_sep a) then a ++ b
  else a ++ "/" ++ b.

End OsPath.

(** ** The module constants *)

Definition EXCLUDED_EXTENSIONS : gset string :=
  list_to_set
    [ ".png"; ".jpg"; ".jpeg"; ".gif"; ".bmp"; ".ico"; ".svg"; ".webp";
      ".mp3"; ".mp4"; ".wav"; ".avi"; ".mov"; ".mkv"; ".flac";
      ".zip"; ".tar"; ".gz"; ".rar"; ".7z";
      ".exe"; ".dll"; ".so"; ".dylib";
      ".pyc"; ".pyo"; ".class";
      ".bin"; ".dat"; ".db"; ".sqlite";
      ".ttf"; ".otf"; ".woff"; ".woff2" ].

(** The set literal of directory names in [scan_directory]. *)
Definition PRUNED_DIRS : gset string :=
  list_to_set [ "node_modules"; "__pycache__"; "venv"; ".git" ].

(** ** Exceptions and results *)

(** The part of Python's exception hierarchy the program distinguishes.
    [KeyboardInterrupt] and [SystemExit] derive from [BaseException]
    only; [KeyError] and every other error raised by the libraries
    derive from [Exception]. *)
Inductive exn : Type :=
| KeyboardInterrupt
| SystemExit (code : Z)
| KeyError (key : string)
| OtherError (cls msg : string).

(** [isinstance(e, Exception)] *)
Definition is_Exception (e : exn) : bool :=
  match e with
  | KeyboardInterrupt | SystemExit _ => false
  | KeyError _ | OtherError _ _ => true
  end.

Inductive res (A : Type) : Type :=
| Ret (a : A)
| Raise (e : exn).
Arguments Ret {A} a.
Arguments Raise {A} e.

(** ** numpy's reductions over the list of token counts *)

(** What [np.sum], [np.mean] and [np.median] hand to [str.format]: an
    [int64], a [float64] or the [float64] not-a-number. A finite float
    is kept as the rational it approximates: the two are equal where
    the arithmetic of [float64] is exact (integers up to 2^53 and their
    halves), and what is proved below of a mean or a median stays
    within that range. *)
Inductive npnum : Type :=
| NpInt (z : Z)
| NpFloat (q : Q)
| NpNaN.

Module Np.

(** Wrap-around of an [int64] accumulator. *)
Definition wrap64 (z : Z) : Z :=
  ((z + 2 ^ 63) mod 2 ^ 64 - 2 ^ 63)%Z.

Definition total (l : list nat) : Z :=
  fold_left (fun acc n => wrap64 (acc + Z.of_nat n)) l 0%Z.

(** [np.sum]: an empty list becomes an empty [float64] array, whose
    sum is [0.0]; a list of ints becomes an [int64] array. *)
Definition sum (l : list nat) : npnum :=
  match l with
  | [] => NpFloat 0
  | _ => NpInt (total l)
  end.

(** [np.mean]: not-a-number (with a RuntimeWarning, not an exception)
    for an empty list. *)
Definition mean (l : list nat) : npnum :=
  match l with
  | [] => NpNaN
  | _ => NpFloat (inject_Z (fold_left (fun acc n => (acc + Z.of_nat n)%Z) l 0%Z)
                  / inject_Z (Z.of_nat (length l)))
  end.

Fixpoint insert_sorted (x : nat) (l : list nat) : list nat :=
  match l with
  | [] => [x]
  | y :: l' => if Nat.leb x y then x :: l else y :: insert_sorted x l'
  end.

Definition sort (l : list nat) : list nat :=
  fold_right insert_sorted [] l.

(** [np.median]: the middle element of the sorted counts, or the mean
    of the two middle ones; not-a-number for an empty list. *)
Definition median (l : list nat) : npnum :=
  match l with
  | [] => NpNaN
  | _ =>
      let s := sort l in
      let n := length s in
      let hi := Z.of_nat (nth (n / 2) s 0) in
      if Nat.even n
      then NpFloat ((inject_Z (Z.of_nat (nth (n / 2 - 1) s 0)) + inject_Z hi) / 2)
      else NpFloat (inject_Z hi)
  end.

End Np.

(** ** What the program does to the outside *)

(** One constructor per [print] call of the source; the argument is what
    the format string is filled with. *)
Inductive printed : Type :=
| PWarnPdf (filepath : string)            (* [warning] Cannot read PDF file: {} *)
| PWarnText (filepath : string)           (* [warning] ...: {} in read_text_file *)
| PExn (e : exn)                          (* print(e) *)
| PInfoFile (filepath : string) (tokens : nat)   (* [info] {}: {:,} tokens *)
| PErrorBasePath (base_path : string)     (* [error] <base_path> does not exist: {} *)
| PRule                                   (* '-' * 60 *)
| PTotalFiles (n : nat)
| PPdfFiles (n : nat)
| PTextFiles (n : nat)
| PSkippedFiles (n : nat)
| PTotalTokens (v : npnum)
| PAvgTokens (v : npnum)
| PMedTokens (v : npnum).

Inductive event : Type :=
| EvOpen (filepath : string) (mode : string)   (* open(filepath, mode) *)
| EvEncode (text : string)                     (* encoder.encode(text) *)
| EvPrint (p : printed).

(** A computation: the events it produced, in order, and how it ended. *)
Definition M (A : Type) : Type := list event * res A.

Definition ret {A} (a : A) : M A := ([], Ret a).
Definition raise {A} (e : exn) : M A := ([], Raise e).
Definition emit (ev : event) : M unit := ([ev], Ret tt).
(** [print] on a standard output that takes every line; [Stdout.print],
    further down, is [print] on one that can refuse a line. *)
Definition print (p : printed) : M unit := emit (EvPrint p).

Definition bind {A B} (m : M A) (k : A -> M B) : M B :=
  match m with
  | (t, Ret a) => let '(t', r) := k a in (t ++ t', r)
  | (t, Raise e) => (t, Raise e)
  end.

Declare Scope py_scope.
Delimit Scope py_scope with py.
Notation "x <- c1 ;; c2" := (bind c1 (fun x => c2))
  (at level 100, c1 at next level, right associativity) : py_scope.
Notation "c1 ;; c2" := (bind c1 (fun _ => c2))
  (at level 100, right associativity) : py_scope.
Local Open Scope py_scope.

(** [sys.exit(code)] raises [SystemExit]. *)
Definition sys_exit {A} (code : Z) : M A := raise (SystemExit code).

(** The handler pair used by every [try] of the three readers:
<<
    except KeyboardInterrupt: sys.exit(0)
    except Exception as e:    handler(e)
>>
    Anything else (a [SystemExit], say) passes through. *)
Definition except_interrupt_or_exception {A}
    (m : M A) (handler : exn -> M A) : M A :=
  match m with
  | (t, Ret a) => (t, Ret a)
  | (t, Raise e) =>
      let '(t', r) :=
        match e with
        | KeyboardInterrupt => sys_exit 0
        | _ => if is_Exception e then handler e else raise e
        end in
      (t ++ t', r)
  end.

(** ** The tokenizer *)

(** A [tiktoken.Encoding]. [encode] is called with its defaults, under
    which tiktoken raises [ValueError] for a text that contains a special
    token such as <|endoftext|>; hence the result type. *)
Record Encoding : Type := {
  enc_name : string;
  encode : string -> res (list nat)
}.

(** ** The file system and the libraries that read it *)

(** A directory entry as [os.walk] sees it through [os.scandir]: an
    entry for which [is_dir()] is false, or a directory, which may be a
    symbolic link and whose own listing may fail with [OSError]. *)
Inductive fsnode : Type :=
| FsFile (name : string)
| FsDir (name : string) (islink : bool) (listing : option (list fsnode)).

(** What a path given on the command line leads to. *)
Inductive root_lookup : Type :=
| Missing                               (* os.path.exists is False *)
| NotListable                           (* exists, os.scandir fails *)
| Listable (entries : list fsnode).

Record World : Type := {
  (** the file system under a path *)
  lookup_path : string -> root_lookup;
  (** [open(filepath, 'rb')] and the bytes of the file *)
  file_bytes : string -> res (list byte);
  (** [open(filepath, 'rb')] and [PyPDF2.PdfReader(fs)]: the pages of
      the document, each with the outcome of its [extract_text()] *)
  pdf_pages : string -> res (list (res string));
  (** [open(filepath, 'r', encoding = 'UTF-8')] and [fs.read()] *)
  file_text : string -> res string;
  (** [tiktoken.encoding_for_model] and [tiktoken.get_encoding] *)
  encoding_for_model : string -> res Encoding;
  get_encoding : string -> res Encoding;
  (** [str.lower] of a string that is not ASCII: the case mapping of the
      Unicode database of the Python runtime *)
  unicode_lower : string -> string
}.

(** [str.lower]. As in CPython, an ASCII string is lowered letter by
    letter, and any other string goes through the Unicode case mapping
    (which, for one, turns the Kelvin sign U+212A into [k]). *)
Definition str_lower (w : World) (s : string) : string :=
  if PyStr.isascii s then PyStr.lower s else unicode_lower w s.

(** An outcome of the outside, brought into the program. *)
Definition lift {A} (r : res A) : M A := ([], r).

(** ** The three readers *)

Section Readers.

Variable w : World.

(** [fs.read(8192)] *)
Definition SNIFF_SIZE : nat := N.to_nat 8192.

Definition x00 : byte := Byte.x00.

Definition is_binary_file (filepath : string) : M bool :=
  except_interrupt_or_exception
    (emit (EvOpen filepath "rb");;
     content <- lift (file_bytes w filepath);;
     let chunk := firstn SNIFF_SIZE content in
     ret (existsb (Byte.eqb x00) chunk))
    (fun _ => ret true).

(** The [for page in reader.pages] loop. [text_parts] is a local of
    the function, declared before the [try]: what was appended before
    an exception stays in it. *)
Fixpoint extract_pages (pages : list (res string)) (text_parts : list string)
  : list string * res unit :=
  match pages with
  | [] => (text_parts, Ret tt)
  | Ret page_text :: rest =>
      extract_pages rest
        (if PyStr.truthy page_text then text_parts ++ [page_text]
         else text_parts)
  | Raise e :: _ => (text_parts, Raise e)
  end.

(** The separator of [join] in [extract_text_from_pdf]. *)
Definition newline : string := String "010"%char "".

(** The body of the [try]: where it leaves [text_parts], and how it
    ends. *)
Definition pdf_try_body (filepath : string) (text_parts : list string)
  : list string * res unit :=
  match pdf_pages w filepath with
  | Ret pages => extract_pages pages text_parts
  | Raise e => (text_parts, Raise e)
  end.

Definition extract_text_from_pdf (filepath : string) : M string :=
  let text_parts : list string := [] in
  let '(text_parts, r) := pdf_try_body filepath text_parts in
  except_interrupt_or_exception
    (emit (EvOpen filepath "rb");; lift r)
    (fun e => print (PWarnPdf filepath);; print (PExn e));;
  ret (PyStr.join newline text_parts).

Definition read_text_file (filepath : string) : M string :=
  except_interrupt_or_exception
    (emit (EvOpen filepath "r");; lift (file_text w filepath))
    (fun e => print (PWarnText filepath);; print (PExn e);; ret "").

End Readers.

(** ** [count_tokens] *)

Definition count_tokens (text : string) (encoder : Encoding) : M nat :=
  if negb (PyStr.truthy text) then
    let length := 0 in ret length
  else
    emit (EvEncode text);;
    toks <- lift (encode encoder text);;
    ret (length toks).

(** ** [scan_directory] *)

Record Stats : Type := {
  tokens : list nat;
  total_files : nat;
  pdf_files : nat;
  text_files : nat;
  skipped_files : nat
}.

Definition skip (stats : Stats) : Stats :=
  {| tokens := tokens stats;
     total_files := total_files stats;
     pdf_files := pdf_files stats;
     text_files := text_files stats;
     skipped_files := skipped_files stats + 1 |}.

Definition record_pdf (n : nat) (stats : Stats) : Stats :=
  {| tokens := tokens stats ++ [n];
     total_files := total_files stats + 1;
     pdf_files := pdf_files stats + 1;
     text_files := text_files stats;
     skipped_files := skipped_files stats |}.

Definition record_text (n : nat) (stats : Stats) : Stats :=
  {| tokens := tokens stats ++ [n];
     total_files := total_files stats + 1;
     pdf_files := pdf_files stats;
     text_files := text_files stats + 1;
     skipped_files := skipped_files stats |}.

(** *** [os.walk], top down, links not followed, errors ignored *)

Definition dirs_of (entries : list fsnode) : list string :=
  flat_map (fun n => match n with FsDir d _ _ => [d] | FsFile _ => [] end) entries.

Definition files_of (entries : list fsnode) : list string :=
  flat_map (fun n => match n with FsFile f => [f] | FsDir _ _ _ => [] end) entries.

(** The filter the loop body assigns to [dirs[:]] before the walk
    descends. *)
Definition keep_dir (d : string) : bool :=
  negb (PyStr.startswith "." d) && bool_decide (d ∉ PRUNED_DIRS).

(** The triples the walk yields below an entry of the directory [top],
    the body's assignment to [dirs[:]] being applied before the
    descent. *)
Fixpoint walk_node (top : string) (n : fsnode) : list (string * list string * list string) :=
  match n with
  | FsFile _ => []
  | FsDir d islink listing =>
      if keep_dir d && negb islink then
        match listing with
        | Some entries =>
            let new_path := OsPath.join top d in
            (new_path, dirs_of entries, files_of entries)
              :: flat_map (walk_node new_path) entries
        | None => []
        end
      else []
  end.

Definition os_walk (top : string) (r : root_lookup) : list (string * list string * list string) :=
  match r with
  | Listable entries =>
      (top, dirs_of entries, files_of entries) :: flat_map (walk_node top) entries
  | NotListable | Missing => []
  end.

Section Scan.

Variable w : World.
Variable encoder : Encoding.

(** The body of [for filename in files]. *)
Definition scan_file (root filename : string) (stats : Stats) : M Stats :=
  let filepath := OsPath.join root filename in
  let ext := snd (OsPath.splitext filename) in
  let ext := str_lower w ext in
  if bool_decide (ext ∈ EXCLUDED_EXTENSIONS) then
    ret (skip stats)
  else if String.eqb ext ".pdf" then
    text <- extract_text_from_pdf w filepath;;
    tokens <- count_tokens text encoder;;
    let stats := record_pdf tokens stats in
    print (PInfoFile filepath tokens);;
    ret stats
  else
    binary <- is_binary_file w filepath;;
    if binary then
      ret (skip stats)
    else
      text <- read_text_file w filepath;;
      tokens <- count_tokens text encoder;;
      let stats := record_text tokens stats in
      print (PInfoFile filepath tokens);;
      ret stats.

Fixpoint scan_files (root : string) (files : list string) (stats : Stats) : M Stats :=
  match files with
  | [] => ret stats
  | filename :: rest =>
      stats <- scan_file root filename stats;;
      scan_files root rest stats
  end.

Fixpoint scan_walk (triples : list (string * list string * list string))
    (stats : Stats) : M Stats :=
  match triples with
  | [] => ret stats
  | (root, _, files) :: rest =>
      stats <- scan_files root files stats;;
      scan_walk rest stats
  end.

Definition empty_stats : Stats :=
  {| tokens := []; total_files := 0; pdf_files := 0;
     text_files := 0; skipped_files := 0 |}.

Definition scan_directory (base_path : string) : M Stats :=
  let stats := empty_stats in
  scan_walk (os_walk base_path (lookup_path w base_path)) stats.

End Scan.

(** ** [main] *)

Record Args : Type := { base_path : string; model : string }.

Definition os_path_exists (w : World) (p : string) : bool :=
  match lookup_path w p with
  | Missing => false
  | NotListable | Listable _ => true
  end.

(** The [try] around [tiktoken.encoding_for_model]: this one catches
    [KeyError] only. *)
Definition resolve_encoder (w : World) (model : string) : M Encoding :=
  match encoding_for_model w model with
  | Ret encoder => ret encoder
  | Raise KeyboardInterrupt => sys_exit 0
  | Raise (KeyError _) => lift (get_encoding w "cl100k_base")
  | Raise e => raise e
  end.

Definition print_summary (stats : Stats) : M unit :=
  print PRule;;
  print (PTotalFiles (total_files stats));;
  print (PPdfFiles (pdf_files stats));;
  print (PTextFiles (text_files stats));;
  print (PSkippedFiles (skipped_files stats));;
  print (PTotalTokens (Np.sum (tokens stats)));;
  print (PAvgTokens (Np.mean (tokens stats)));;
  print (PMedTokens (Np.median (tokens stats))).

Definition main (w : World) (args : Args) : M unit :=
  (if negb (os_path_exists w (base_path args)) then
     print (PErrorBasePath (base_path args));;
     sys_exit 0
   else ret tt);;
  encoder <- resolve_encoder w (model args);;
  stats <- scan_directory w encoder (base_path args);;
  print_summary stats.

(** ** Vocabulary of the properties *)

(** The extension the body computes from a file name. *)
Definition ext_of (w : World) (filename : string) : string :=
  str_lower w (snd (OsPath.splitext filename)).

(** The files the two nested loops go through, each with the directory
    the walk reported it in. *)
Definition walked_files (triples : list (string * list string * list string))
  : list (string * string) :=
  flat_map (fun '(root, _, files) => map (pair root) files) triples.

(** What holds of the statistics after [seen] files. *)
Definition stats_inv (seen : nat) (stats : Stats) : Prop :=
  total_files stats = pdf_files stats + text_files stats /\
  length (tokens stats) = total_files stats /\
  skipped_files stats + length (tokens stats) = seen.

(** The events of the summary block. *)
Definition summary_lines (stats : Stats) : list event :=
  [ EvPrint PRule;
    EvPrint (PTotalFiles (total_files stats));
    EvPrint (PPdfFiles (pdf_files stats));
    EvPrint (PTextFiles (text_files stats));
    EvPrint (PSkippedFiles (skipped_files stats));
    EvPrint (PTotalTokens (Np.sum (tokens stats)));
    EvPrint (PAvgTokens (Np.mean (tokens stats)));
    EvPrint (PMedTokens (Np.median (tokens stats))) ].

(** An outcome of the outside that is not an interrupt of the run:
    whatever it raises is an [Exception]. *)
Definition raises_only_Exception {A} (r : res A) : Prop :=
  forall e, r = Raise e -> is_Exception e = true.

(** A world in which no file operation is interrupted. *)
Record uninterrupted (w : World) : Prop := {
  bytes_uninterrupted : forall p, raises_only_Exception (file_bytes w p);
  pdf_uninterrupted : forall p, raises_only_Exception (pdf_pages w p);
  pages_uninterrupted :
    forall p pages, pdf_pages w p = Ret pages ->
                    Forall raises_only_Exception pages;
  text_uninterrupted : forall p, raises_only_Exception (file_text w p)
}.

(** An encoder that accepts every text. *)
Definition accepts_all (encoder : Encoding) : Prop :=
  forall text, exists toks, encode encoder text = Ret toks.

(** [walks_to top entries root es]: starting in the directory [top],
    whose entries are [entries], the walk comes to the directory [root],
    whose entries are [es], through directories that are kept by the
    filter on [dirs], are not symbolic links and can be listed. *)
Inductive walks_to (top : string) (entries : list fsnode)
  : string -> list fsnode -> Prop :=
| walks_here : walks_to top entries top entries
| walks_down (d : string) (sub : list fsnode) (root : string) (es : list fsnode) :
    In (FsDir d false (Some sub)) entries ->
    keep_dir d = true ->
    walks_to (OsPath.join top d) sub root es ->
    walks_to top entries root es.

(** The two nested loops as one loop over [walked_files]. *)
Fixpoint scan_each (w : World) (encoder : Encoding)
    (l : list (string * string)) (stats : Stats) : M Stats :=
  match l with
  | [] => ret stats
  | (root, filename) :: rest =>
      stats <- scan_file w encoder root filename stats;;
      scan_each w encoder rest stats
  end.

(** *** Vocabulary of the properties of the readers, the walk and the
    traces *)

(** The texts of the pages before the first page whose extraction
    raises. *)
Fixpoint pages_before_failure (pages : list (res string)) : list string :=
  match pages with
  | Ret page_text :: rest => page_text :: pages_before_failure rest
  | Raise _ :: _ | [] => []
  end.

(** How going through the pages ends: with the first exception, if
    any. *)
Fixpoint first_failure (pages : list (res string)) : res unit :=
  match pages with
  | [] => Ret tt
  | Ret _ :: rest => first_failure rest
  | Raise e :: _ => Raise e
  end.

(** The token counts of the per-file [[info]] lines of a trace, in
    order. *)
Definition info_counts (t : list event) : list nat :=
  flat_map (fun ev => match ev with
                      | EvPrint (PInfoFile _ n) => [n]
                      | _ => []
                      end) t.

(** The paths a trace opens, in order. *)
Definition opened_paths (t : list event) : list string :=
  flat_map (fun ev => match ev with EvOpen p _ => [p] | _ => [] end) t.

(** The events the processing of the file [filepath] can produce. *)
Definition file_event (filepath : string) (ev : event) : Prop :=
  match ev with
  | EvOpen p mode => p = filepath /\ (mode = "rb" \/ mode = "r")
  | EvEncode _ => True
  | EvPrint (PWarnPdf p) | EvPrint (PWarnText p) | EvPrint (PInfoFile p _) =>
      p = filepath
  | EvPrint (PExn _) => True
  | EvPrint _ => False
  end.

(** The events a scan can produce: those of some file the walk
    yielded and the extension did not exclude. *)
Definition scan_event (w : World) (files : list (string * string)) (ev : event) : Prop :=
  exists root filename,
    In (root, filename) files /\
    (ext_of w filename ∉ EXCLUDED_EXTENSIONS) /\
    file_event (OsPath.join root filename) ev.


(** The number of entries of a tree. *)
Fixpoint fs_size (n : fsnode) : nat :=
  match n with
  | FsFile _ => 1
  | FsDir _ _ None => 1
  | FsDir _ _ (Some entries) => S (list_sum (map fs_size entries))
  end.

(** Does the character occur in the string? *)
Fixpoint has_char (c : ascii) (s : string) : bool :=
  match s with
  | EmptyString => false
  | String a s' => Ascii.eqb a c || has_char c s'
  end.

(** ** The program on a standard output that can refuse a line *)

(** [print] encodes the line for [sys.stdout] before it writes it, and
    raises [UnicodeEncodeError] when the stream cannot encode it (a
    file name with undecodable bytes, the Korean warning on an ASCII
    terminal); a closed pipe raises too. The definitions above take a
    standard output that accepts every line. Here the outcome of
    writing a line is a parameter, [out], and the functions that print
    are given again over it; the others are the ones above. *)
Module Stdout.

Section Out.

Variable out : printed -> res unit.
Variable w : World.

(** A line that cannot be written leaves no output. *)
Definition print (p : printed) : M unit :=
  match out p with
  | Ret _ => ([EvPrint p], Ret tt)
  | Raise e => ([], Raise e)
  end.

Definition extract_text_from_pdf (filepath : string) : M string :=
  let text_parts : list string := [] in
  let '(text_parts, r) := pdf_try_body w filepath text_parts in
  except_interrupt_or_exception
    (emit (EvOpen filepath "rb");; lift r)
    (fun e => print (PWarnPdf filepath);; print (PExn e));;
  ret (PyStr.join newline text_parts).

Definition read_text_file (filepath : string) : M string :=
  except_interrupt_or_exception
    (emit (EvOpen filepath "r");; lift (file_text w filepath))
    (fun e => print (PWarnText filepath);; print (PExn e);; ret "").

Variable encoder : Encoding.

Definition scan_file (root filename : string) (stats : Stats) : M Stats :=
  let filepath := OsPath.join root filename in
  let ext := snd (OsPath.splitext filename) in
  let ext := str_lower w ext in
  if bool_decide (ext ∈ EXCLUDED_EXTENSIONS) then
    ret (skip stats)
  else if String.eqb ext ".pdf" then
    text <- extract_text_from_pdf filepath;;
    tokens <- count_tokens text encoder;;
    let stats := record_pdf tokens stats in
    print (PInfoFile filepath tokens);;
    ret stats
  else
    binary <- is_binary_file w filepath;;
    if binary then
      ret (skip stats)
    else
      text <- read_text_file filepath;;
      tokens <- count_tokens text encoder;;
      let stats := record_text tokens stats in
      print (PInfoFile filepath tokens);;
      ret stats.

Fixpoint scan_files (root : string) (files : list string) (stats : Stats) : M Stats :=
  match files with
  | [] => ret stats
  | filename :: rest =>
      stats <- scan_file root filename stats;;
      scan_files root rest stats
  end.

Fixpoint scan_walk (triples : list (string * list string * list string))
    (stats : Stats) : M Stats :=
  match triples with
  | [] => ret stats
  | (root, _, files) :: rest =>
      stats <- scan_files root files stats;;
      scan_walk rest stats
  end.

Definition scan_directory (base_path : string) : M Stats :=
  let stats := empty_stats in
  scan_walk (os_walk base_path (lookup_path w base_path)) stats.

Definition print_summary (stats : Stats) : M unit :=
  print PRule;;
  print (PTotalFiles (total_files stats));;
  print (PPdfFiles (pdf_files stats));;
  print (PTextFiles (text_files stats));;
  print (PSkippedFiles (skipped_files stats));;
  print (PTotalTokens (Np.sum (tokens stats)));;
  print (PAvgTokens (Np.mean (tokens stats)));;
  print (PMedTokens (Np.median (tokens stats))).

End Out.

Definition main (out : printed -> res unit) (w : World) (args : Args) : M unit :=
  (if negb (os_path_exists w (base_path args)) then
     print out (PErrorBasePath (base_path args));;
     sys_exit 0
   else ret tt);;
  encoder <- resolve_encoder w (model args);;
  stats <- scan_directory out w encoder (base_path args);;
  print_summary out stats.

End Stdout.

(** A standard output that takes every line. *)
Definition accepts_every_line (out : printed -> res unit) : Prop :=
  forall p, out p = Ret tt.

(** The exception was raised by writing a line to the standard
    output. *)
Definition refused (out : printed -> res unit) (e : exn) : Prop :=
  exists p, out p = Raise e.

(** ** A concrete world *)

Module Demo.

(** Does [needle] occur in [s]? *)
Fixpoint contains (needle s : string) : bool :=
  String.prefix needle s ||
  match s with
  | EmptyString => false
  | String _ s' => contains needle s'
  end.

(** A stand-in for a tiktoken encoding: one token per byte, and, as
    tiktoken does under the defaults of [encode], a [ValueError] for a
    text that contains the special token. *)
Definition byte_encoding (name : string) : Encoding :=
  {| enc_name := name;
     encode := fun text =>
       if contains "<|endoftext|>" text then
         Raise (OtherError "ValueError"
                  "Encountered text corresponding to disallowed special token")
       else Ret (map nat_of_ascii (list_ascii_of_string text)) |}.

Definition o200k_base : Encoding := byte_encoding "o200k_base".
Definition cl100k_base : Encoding := byte_encoding "cl100k_base".

(** The Kelvin sign U+212A, in UTF-8. *)
Definition kelvin_sign : string :=
  String "226" (String "132" (String "170" "")).

(** The Unicode case mapping, as far as the file names of these worlds
    need it: the Kelvin sign becomes [k], ASCII letters are lowered. *)
Fixpoint lower_kelvin (s : string) : string :=
  match s with
  | EmptyString => EmptyString
  | String c rest =>
      match c, rest with
      | "226"%char, String "132" (String "170" rest') =>
          String "k" (lower_kelvin rest')
      | _, _ => String (PyStr.lower_ascii c) (lower_kelvin rest)
      end
  end.

(** A file name whose extension is [.MKV] written with the Kelvin sign;
    [str.lower] makes [.mkv] of it. *)
Definition kelvin_clip : string :=
  String.append "clip.M" (String.append kelvin_sign "V").

Definition no_such_file {A} : res A :=
  Raise (OtherError "FileNotFoundError" "No such file or directory").

Definition tree : list fsnode :=
  [ FsFile "a.txt"; FsFile "logo.PNG"; FsFile ".env"; FsFile "doc.pdf";
    FsFile "blob"; FsFile "bad.pdf";
    FsDir ".git" false (Some [FsFile "config"]);
    FsDir "node_modules" false (Some [FsFile "index.js"]);
    FsDir "sub" false (Some [FsFile ".hidden.md"; FsFile "locked"]) ].

Definition world : World :=
  {| lookup_path := fun p =>
       if String.eqb p "/data" then Listable tree
       else if String.eqb p "/empty" then Listable []
       else Missing;
     file_bytes := fun p =>
       if String.eqb p "/data/a.txt" then Ret [x68; x69]
       else if String.eqb p "/data/.env" then Ret [x4b; x3d; x31]
       else if String.eqb p "/data/blob" then Ret [x7f; x45; x00; x01]
       else if String.eqb p "/data/sub/.hidden.md" then Ret [x23]
       else if String.eqb p "/data/sub/locked" then
         Raise (OtherError "PermissionError" "Permission denied")
       else no_such_file;
     pdf_pages := fun p =>
       if String.eqb p "/data/doc.pdf" then
         Ret [Ret "hello"; Ret ""; Raise (OtherError "PdfReadError" "broken page")]
       else if String.eqb p "/data/bad.pdf" then
         Raise (OtherError "PdfReadError" "EOF marker not found")
       else no_such_file;
     file_text := fun p =>
       if String.eqb p "/data/a.txt" then Ret "hi"
       else if String.eqb p "/data/.env" then Ret "K=1"
       else if String.eqb p "/data/sub/.hidden.md" then Ret "#"
       else no_such_file;
     encoding_for_model := fun m =>
       if String.eqb m "gpt-4o" then Ret o200k_base
       else Raise (KeyError "Could not automatically map the model to a tokeniser");
     get_encoding := fun n =>
       if String.eqb n "cl100k_base" then Ret cl100k_base
       else Raise (OtherError "ValueError" "Unknown encoding");
     unicode_lower := lower_kelvin |}.

(** What scanning [/data] in [world] returns. *)
Definition data_stats : Stats :=
  {| tokens := [2; 3; 5; 0; 1]; total_files := 5; pdf_files := 2;
     text_files := 3; skipped_files := 3 |}.

(** What the loop body returns for [/data/sub/.hidden.md], starting
    from the empty statistics. *)
Definition hidden_stats : Stats :=
  {| tokens := [1]; total_files := 1; pdf_files := 0;
     text_files := 1; skipped_files := 0 |}.

(** A directory of three text files; the content of the second one
    holds the special token. *)
Definition world_special : World :=
  {| lookup_path := fun p =>
       if String.eqb p "/notes" then
         Listable [FsFile "a.txt"; FsFile "tokens.md"; FsFile "z.txt"]
       else Missing;
     file_bytes := fun p => Ret [x68; x69];
     pdf_pages := fun p => no_such_file;
     file_text := fun p =>
       if String.eqb p "/notes/tokens.md" then Ret "stop at <|endoftext|>"
       else Ret "hi";
     encoding_for_model := encoding_for_model world;
     get_encoding := get_encoding world;
     unicode_lower := lower_kelvin |}.

(** A corpus with a readable PDF, a PDF without text, a text file that
    is not UTF-8, an empty file, names without extension, a long file
    with a late zero byte, a linked and a hidden directory. *)
Definition corpus : list fsnode :=
  [ FsFile "good.pdf"; FsFile "scan.pdf"; FsFile "latin1.txt";
    FsFile "empty.txt"; FsFile "Makefile"; FsFile ".pdf"; FsFile "big.log";
    FsDir "link" true (Some [FsFile "x.txt"]);
    FsDir "venv" false (Some [FsFile "pyvenv.cfg"]);
    FsDir "docs" false
      (Some [FsFile "README.MD"; FsDir ".cache" false (Some [FsFile "c"])]) ].

Definition world_corpus : World :=
  {| lookup_path := fun p =>
       if String.eqb p "/corpus" then Listable corpus
       else if String.eqb p "/single" then Listable [FsFile "a.txt"]
       else Missing;
     file_bytes := fun p =>
       if String.eqb p "/corpus/big.log" then
         Ret (repeat x61 SNIFF_SIZE ++ [x00])
       else if String.eqb p "/corpus/empty.txt" then Ret []
       else Ret [x61];
     pdf_pages := fun p =>
       if String.eqb p "/corpus/good.pdf" then Ret [Ret "a"; Ret ""; Ret "b"]
       else if String.eqb p "/corpus/scan.pdf" then Ret [Ret ""; Ret ""]
       else no_such_file;
     file_text := fun p =>
       if String.eqb p "/corpus/latin1.txt" then
         Raise (OtherError "UnicodeDecodeError" "invalid start byte")
       else if String.eqb p "/corpus/empty.txt" then Ret ""
       else Ret "ok";
     encoding_for_model := encoding_for_model world;
     get_encoding := get_encoding world;
     unicode_lower := lower_kelvin |}.

(** The user presses Ctrl-C while [/notes/b.txt] is read as text,
    while [/notes/c.pdf] is parsed, while [/notes/d.txt] is sniffed. *)
Definition world_interrupted : World :=
  {| lookup_path := fun p =>
       if String.eqb p "/notes" then
         Listable [FsFile "a.txt"; FsFile "b.txt"; FsFile "z.txt"]
       else Missing;
     file_bytes := fun p =>
       if String.eqb p "/notes/d.txt" then Raise KeyboardInterrupt
       else Ret [x68; x69];
     pdf_pages := fun p =>
       if String.eqb p "/notes/c.pdf" then Ret [Ret "a"; Raise KeyboardInterrupt]
       else no_such_file;
     file_text := fun p =>
       if String.eqb p "/notes/b.txt" then Raise KeyboardInterrupt
       else Ret "hi";
     encoding_for_model := fun m =>
       if String.eqb m "gpt-4o" then Ret o200k_base
       else if String.eqb m "ctrl-c" then Raise KeyboardInterrupt
       else if String.eqb m "offline" then
         Raise (OtherError "ConnectionError" "Failed to fetch the vocabulary")
       else Raise (KeyError "Could not automatically map the model to a tokeniser");
     get_encoding := fun n =>
       Raise (OtherError "ConnectionError" "Failed to fetch the vocabulary");
     unicode_lower := lower_kelvin |}.

(** An encoding without special tokens: one token per byte, for every
    text. *)
Definition plain_encoding : Encoding :=
  {| enc_name := "plain";
     encode := fun text => Ret (map nat_of_ascii (list_ascii_of_string text)) |}.

(** The corpus, with a tokenizer registry that knows the plain encoding
    only, and with a regular file [/corpus.txt] beside it. *)
Definition world_plain : World :=
  {| lookup_path := fun p =>
       if String.eqb p "/corpus.txt" then NotListable
       else lookup_path world_corpus p;
     file_bytes := file_bytes world_corpus;
     pdf_pages := pdf_pages world_corpus;
     file_text := file_text world_corpus;
     encoding_for_model := fun m => Ret plain_encoding;
     get_encoding := fun n => Ret plain_encoding;
     unicode_lower := lower_kelvin |}.

(** A standard output with an ASCII encoding: it cannot take the
    warning of [read_text_file], whose text is Korean. *)
Definition ascii_stdout (p : printed) : res unit :=
  match p with
  | PWarnText _ =>
      Raise (OtherError "UnicodeEncodeError"
               "'ascii' codec can't encode characters")
  | _ => Ret tt
  end.

(** A standard output that takes every line. *)
Definition accepting_stdout (p : printed) : res unit := Ret tt.

End Demo.

(** * Properties *)

(** ** Paths *)

Example splitext_png : OsPath.splitext "a.b.PNG" = ("a.b", ".PNG").
Proof. reflexivity. Qed.
Example splitext_dotfile : OsPath.splitext ".png" = (".png", "").
Proof. reflexivity. Qed.
Example splitext_dots : OsPath.splitext "..a.x" = ("..a", ".x").
Proof. reflexivity. Qed.
Example ext_of_upper : ext_of Demo.world "Report.PDF" = ".pdf".
Proof. reflexivity. Qed.
Example ext_of_kelvin : ext_of Demo.world Demo.kelvin_clip = ".mkv".
Proof. vm_compute. reflexivity. Qed.
Example keep_dir_hidden : keep_dir ".cache" = false.
Proof. vm_compute. reflexivity. Qed.
Example keep_dir_venv : keep_dir "venv" = false.
Proof. vm_compute. reflexivity. Qed.
Example keep_dir_src : keep_dir "src" = true.
Proof. vm_compute. reflexivity. Qed.

(** The walk of [/data] in [Demo.world] leaves [.git] and
    [node_modules] out and keeps the files whose names start with a
    dot. *)
Example walked_files_data :
  walked_files (os_walk "/data" (lookup_path Demo.world "/data"))
  = [ ("/data", "a.txt"); ("/data", "logo.PNG"); ("/data", ".env");
      ("/data", "doc.pdf"); ("/data", "blob"); ("/data", "bad.pdf");
      ("/data/sub", ".hidden.md"); ("/data/sub", "locked") ].
Proof. vm_compute. reflexivity. Qed.

Example scan_directory_data :
  snd (scan_directory Demo.world Demo.o200k_base "/data") = Ret Demo.data_stats.
Proof. vm_compute. reflexivity. Qed.

(** ** The monad *)

Lemma bind_ret_l {A B} (a : A) (k : A -> M B) : bind (ret a) k = k a.
Proof. unfold bind, ret. destruct (k a) as [t r]. reflexivity. Qed.

Lemma bind_Ret {A B} (t : list event) (a : A) (k : A -> M B) :
  bind (t, Ret a) k = (t ++ fst (k a), snd (k a)).
Proof. unfold bind. destruct (k a) as [t' r]. reflexivity. Qed.


(** A sequence that returns is made of two parts that return. *)
Lemma bind_inv_Ret {A B} (m : M A) (k : A -> M B) (t : list event) (b : B) :
  bind m k = (t, Ret b) ->
  exists t1 a t2, m = (t1, Ret a) /\ k a = (t2, Ret b) /\ t = t1 ++ t2.
Proof.
  destruct m as [t1 [a | e]]; cbn.
  - destruct (k a) as [t2 r] eqn:Hk. intros [= <- ->].
    exists t1, a, t2. auto.
  - intros [= _ ?]. 
Qed.

Lemma except_Ret {A} (t : list event) (a : A) (h : exn -> M A) :
  except_interrupt_or_exception (t, Ret a) h = (t, Ret a).
Proof. reflexivity. Qed.

Lemma except_Exception {A} (t : list event) (e : exn) (h : exn -> M A) :
  is_Exception e = true ->
  except_interrupt_or_exception (t, Raise e) h = (t ++ fst (h e), snd (h e)).
Proof.
  intros He. unfold except_interrupt_or_exception.
  destruct e; try discriminate He; cbn; destruct (h _); reflexivity.
Qed.

Lemma except_not_Exception {A} (t : list event) (e : exn) (h : exn -> M A) :
  is_Exception e = false ->
  except_interrupt_or_exception (t, Raise e) h
  = (t, Raise (match e with KeyboardInterrupt => SystemExit 0 | _ => e end)).
Proof.
  intros He. unfold except_interrupt_or_exception.
  destruct e; try discriminate He; cbn; rewrite app_nil_r; reflexivity.
Qed.

(** ** [count_tokens] *)

Lemma count_tokens_eq (text : string) (encoder : Encoding) :
  count_tokens text encoder =
  match text with
  | EmptyString => ([], Ret 0)
  | String _ _ =>
      ([EvEncode text],
       match encode encoder text with
       | Ret toks => Ret (length toks)
       | Raise e => Raise e
       end)
  end.
Proof.
  unfold count_tokens. destruct text as [| c text']; [reflexivity |].
  cbn. destruct (encode encoder _); reflexivity.
Qed.

(** C8. [count_tokens] returns 0 for the empty string and calls nothing
    (its trace is empty); for any other text its one event is the call
    of the encoder on that very text, and it returns the length of what
    the encoder returned (or raises what the encoder raised). Counting
    the same text twice with the same encoder never gives two different
    counts. *)
Theorem count_tokens_spec (text : string) (encoder : Encoding) :
  count_tokens "" encoder = ([], Ret 0) /\
  count_tokens text encoder =
    match text with
    | EmptyString => ([], Ret 0)
    | String _ _ =>
        ([EvEncode text],
         match encode encoder text with
         | Ret toks => Ret (length toks)
         | Raise e => Raise e
         end)
    end /\
  snd (first <- count_tokens text encoder;;
       second <- count_tokens text encoder;;
       ret (Nat.eqb first second)) <> Ret false.
Proof.
  split; [reflexivity |]. split; [apply count_tokens_eq |].
  rewrite count_tokens_eq.
  destruct text as [| c text']; cbn; [discriminate |].
  destruct (encode encoder _) as [toks | e]; cbn; [| discriminate].
  rewrite Nat.eqb_refl. discriminate.
Qed.

(** ** The loop body, case by case *)

Lemma SNIFF_SIZE_eq : N.of_nat SNIFF_SIZE = 8192%N.
Proof. unfold SNIFF_SIZE. apply N2Nat.id. Qed.

Lemma existsb_x00 (chunk : list byte) :
  existsb (Byte.eqb x00) chunk = true <-> In x00 chunk.
Proof.
  rewrite existsb_exists. split.
  - intros (b & Hin & Hb). apply Byte.byte_dec_bl in Hb. now subst b.
  - intros Hin. exists x00. split; [assumption | now apply Byte.byte_dec_lb].
Qed.

Lemma is_binary_file_eq (w : World) (filepath : string) :
  is_binary_file w filepath =
  match file_bytes w filepath with
  | Ret content =>
      ([EvOpen filepath "rb"], Ret (existsb (Byte.eqb x00) (firstn SNIFF_SIZE content)))
  | Raise KeyboardInterrupt => ([EvOpen filepath "rb"], Raise (SystemExit 0))
  | Raise e =>
      ([EvOpen filepath "rb"], if is_Exception e then Ret true else Raise e)
  end.
Proof.
  unfold is_binary_file, lift, emit.
  destruct (file_bytes w filepath) as [content | e]; [reflexivity |].
  destruct e; reflexivity.
Qed.

(** C2. A file whose extension, lowered by [str.lower], is in the exclusion set makes
    the loop body return at once: the body's trace is empty (no file is
    opened, the encoder is not called, nothing is printed), and the
    statistics it returns differ from the ones it got in
    [skipped_files] only, which is one higher. *)
Theorem excluded_file_only_skipped
    (w : World) (encoder : Encoding) (root filename : string) (stats : Stats) :
  ext_of w filename ∈ EXCLUDED_EXTENSIONS ->
  exists stats',
    scan_file w encoder root filename stats = ([], Ret stats') /\
    skipped_files stats' = skipped_files stats + 1 /\
    tokens stats' = tokens stats /\
    total_files stats' = total_files stats /\
    pdf_files stats' = pdf_files stats /\
    text_files stats' = text_files stats.
Proof.
  intros Hex. exists (skip stats). split; [| now cbn].
  unfold scan_file. fold (ext_of w filename).
  rewrite (bool_decide_eq_true_2 _ Hex). reflexivity.
Qed.

Lemma excluded_file_only_skipped_witness :
  (exists stats',
     scan_file Demo.world Demo.o200k_base "/data" "logo.PNG" empty_stats
       = ([], Ret stats') /\
     skipped_files stats' = 1 /\
     tokens stats' = [] /\
     total_files stats' = 0 /\
     pdf_files stats' = 0 /\
     text_files stats' = 0) /\
  (exists stats',
     scan_file Demo.world Demo.o200k_base "/data" Demo.kelvin_clip empty_stats
       = ([], Ret stats') /\
     skipped_files stats' = 1 /\
     tokens stats' = [] /\
     total_files stats' = 0 /\
     pdf_files stats' = 0 /\
     text_files stats' = 0).
Proof.
  split.
  - apply (excluded_file_only_skipped Demo.world Demo.o200k_base
             "/data" "logo.PNG" empty_stats).
    apply (bool_decide_unpack _). vm_compute. exact I.
  - apply (excluded_file_only_skipped Demo.world Demo.o200k_base
             "/data" Demo.kelvin_clip empty_stats).
    apply (bool_decide_unpack _). vm_compute. exact I.
Defined.

(** C3. The binary sniff of a file opens it once in mode [rb] and looks
    at no more than the first [SNIFF_SIZE] = 8192 bytes: it returns [True] exactly when
    the byte 0 is among them or when opening or reading raised an
    [Exception], and [False] exactly when the bytes were read and 0 is
    not among the first 8192. For a file that is neither excluded nor a
    PDF and that the sniff calls binary, the loop body does nothing but
    that one open, and changes [skipped_files] only. *)
Theorem binary_sniff_spec
    (w : World) (encoder : Encoding) (root filename : string) (stats : Stats) :
  let filepath := OsPath.join root filename in
  fst (is_binary_file w filepath) = [EvOpen filepath "rb"] /\
  (snd (is_binary_file w filepath) = Ret true <->
     (exists content,
        file_bytes w filepath = Ret content /\ In x00 (firstn SNIFF_SIZE content)) \/
     (exists e, file_bytes w filepath = Raise e /\ is_Exception e = true)) /\
  (snd (is_binary_file w filepath) = Ret false <->
     exists content,
       file_bytes w filepath = Ret content /\ ~ In x00 (firstn SNIFF_SIZE content)) /\
  (ext_of w filename ∉ EXCLUDED_EXTENSIONS ->
   ext_of w filename <> ".pdf" ->
   snd (is_binary_file w filepath) = Ret true ->
   exists stats',
     scan_file w encoder root filename stats = ([EvOpen filepath "rb"], Ret stats') /\
     skipped_files stats' = skipped_files stats + 1 /\
     tokens stats' = tokens stats /\
     total_files stats' = total_files stats /\
     pdf_files stats' = pdf_files stats /\
     text_files stats' = text_files stats).
Proof.
  intros filepath.
  pose proof (is_binary_file_eq w filepath) as Heq.
  assert (Hfst : fst (is_binary_file w filepath) = [EvOpen filepath "rb"]).
  { rewrite Heq. destruct (file_bytes w filepath) as [c | e]; [reflexivity |].
    destruct e; reflexivity. }
  split; [exact Hfst |].
  split; [| split].
  - rewrite Heq. destruct (file_bytes w filepath) as [content | e].
    + cbn. split.
      * intros [= H]. left. exists content. split; [reflexivity |].
        now apply existsb_x00.
      * intros [(c & [= <-] & Hin) | (e & [=] & _)].
        f_equal. now apply existsb_x00.
    + split.
      * intros H. right. exists e. split; [reflexivity |].
        destruct e; cbn in *; congruence.
      * intros [(c & [=] & _) | (e' & [= <-] & He)].
        destruct e; cbn in *; congruence.
  - rewrite Heq. destruct (file_bytes w filepath) as [content | e].
    + cbn. split.
      * intros [= H]. exists content. split; [reflexivity |].
        rewrite <- existsb_x00. congruence.
      * intros (c & [= <-] & Hin). f_equal.
        rewrite <- existsb_x00 in Hin. now destruct (existsb _ _).
    + split.
      * destruct e; cbn; congruence.
      * intros (c & [=] & _).
  - intros Hnex Hnpdf Hbin. exists (skip stats). split; [| now cbn].
    unfold scan_file. fold (ext_of w filename). fold filepath.
    rewrite (bool_decide_eq_false_2 _ Hnex).
    apply String.eqb_neq in Hnpdf. rewrite Hnpdf.
    destruct (is_binary_file w filepath) as [t r]. cbn in Hfst, Hbin.
    subst t r. reflexivity.
Qed.

Lemma binary_sniff_spec_witness :
  exists stats',
    scan_file Demo.world Demo.o200k_base "/data" "blob" empty_stats
      = ([EvOpen "/data/blob" "rb"], Ret stats') /\
    skipped_files stats' = 1 /\
    tokens stats' = [] /\
    total_files stats' = 0 /\
    pdf_files stats' = 0 /\
    text_files stats' = 0.
Proof.
  apply (proj2 (proj2 (proj2
           (binary_sniff_spec Demo.world Demo.o200k_base "/data" "blob" empty_stats)))).
  - apply (bool_decide_unpack _). vm_compute. exact I.
  - vm_compute. discriminate.
  - vm_compute. reflexivity.
Defined.

(** ** The invariant of the statistics *)

(** A file either is skipped or adds one sample, never both. *)
Lemma scan_file_cases (w : World) (encoder : Encoding)
    (root filename : string) (stats stats' : Stats) (t : list event) :
  scan_file w encoder root filename stats = (t, Ret stats') ->
  stats' = skip stats \/
  exists n, stats' = record_pdf n stats \/ stats' = record_text n stats.
Proof.
  unfold scan_file.
  destruct (bool_decide _).
  { intros [= _ <-]. now left. }
  destruct (String.eqb _ ".pdf").
  - intros H.
    apply bind_inv_Ret in H as (t1 & text & t2 & _ & H & _).
    apply bind_inv_Ret in H as (t3 & n & t4 & _ & H & _).
    apply bind_inv_Ret in H as (t5 & [] & t6 & _ & [= _ <-] & _).
    right. exists n. now left.
  - intros H.
    apply bind_inv_Ret in H as (t1 & binary & t2 & _ & H & _).
    destruct binary.
    { injection H as _ <-. now left. }
    apply bind_inv_Ret in H as (t3 & text & t4 & _ & H & _).
    apply bind_inv_Ret in H as (t5 & n & t6 & _ & H & _).
    apply bind_inv_Ret in H as (t7 & [] & t8 & _ & [= _ <-] & _).
    right. exists n. now right.
Qed.

Lemma scan_file_inv (w : World) (encoder : Encoding)
    (root filename : string) (stats stats' : Stats) (t : list event) (seen : nat) :
  stats_inv seen stats ->
  scan_file w encoder root filename stats = (t, Ret stats') ->
  stats_inv (S seen) stats'.
Proof.
  intros (H1 & H2 & H3) H.
  apply scan_file_cases in H as [-> | (n & [-> | ->])];
    unfold stats_inv; cbn; rewrite ?length_app; cbn; lia.
Qed.

Lemma scan_files_inv (w : World) (encoder : Encoding) (root : string)
    (files : list string) :
  forall (stats stats' : Stats) (t : list event) (seen : nat),
    stats_inv seen stats ->
    scan_files w encoder root files stats = (t, Ret stats') ->
    stats_inv (seen + length files) stats'.
Proof.
  induction files as [| filename rest IH]; intros stats stats' t seen Hinv H.
  - injection H as _ <-. cbn. now rewrite Nat.add_0_r.
  - cbn in H. apply bind_inv_Ret in H as (t1 & st1 & t2 & H1 & H2 & _).
    eapply scan_file_inv in H1; [| eassumption].
    eapply IH in H2; [| eassumption].
    cbn. now replace (seen + S (length rest)) with (S seen + length rest) by lia.
Qed.

Lemma scan_walk_inv (w : World) (encoder : Encoding)
    (triples : list (string * list string * list string)) :
  forall (stats stats' : Stats) (t : list event) (seen : nat),
    stats_inv seen stats ->
    scan_walk w encoder triples stats = (t, Ret stats') ->
    stats_inv (seen + length (walked_files triples)) stats'.
Proof.
  induction triples as [| [[root dirs] files] rest IH];
    intros stats stats' t seen Hinv H.
  - injection H as _ <-. cbn. now rewrite Nat.add_0_r.
  - cbn in H. apply bind_inv_Ret in H as (t1 & st1 & t2 & H1 & H2 & _).
    eapply scan_files_inv in H1; [| eassumption].
    eapply IH in H2; [| eassumption].
    cbn. rewrite length_app, length_map.
    now rewrite Nat.add_assoc.
Qed.

(** C1. Whenever [scan_directory] returns its statistics,
    [total_files = pdf_files + text_files], the list of token counts has
    [total_files] elements, and [skipped_files] is the number of files
    the walk went through minus the number of recorded counts: every
    file that added no count was counted as skipped, and no other. *)
Theorem scan_directory_invariant
    (w : World) (encoder : Encoding) (base_path : string)
    (t : list event) (stats : Stats) :
  scan_directory w encoder base_path = (t, Ret stats) ->
  total_files stats = pdf_files stats + text_files stats /\
  length (tokens stats) = total_files stats /\
  skipped_files stats + length (tokens stats)
    = length (walked_files (os_walk base_path (lookup_path w base_path))).
Proof.
  unfold scan_directory. intros H.
  eapply (scan_walk_inv _ _ _ _ _ _ 0) in H; [exact H |].
  repeat split.
Qed.

Lemma scan_directory_invariant_witness :
  total_files Demo.data_stats
    = pdf_files Demo.data_stats + text_files Demo.data_stats /\
  length (tokens Demo.data_stats) = total_files Demo.data_stats /\
  skipped_files Demo.data_stats + length (tokens Demo.data_stats)
    = length (walked_files (os_walk "/data" (lookup_path Demo.world "/data"))).
Proof.
  eapply (scan_directory_invariant Demo.world Demo.o200k_base "/data").
  vm_compute. reflexivity.
Defined.

(** ** Unreadable PDF files *)

Lemma pdf_not_excluded : ".pdf" ∉ EXCLUDED_EXTENSIONS.
Proof. apply (bool_decide_unpack _). vm_compute. exact I. Qed.


Lemma scan_file_pdf (w : World) (encoder : Encoding)
    (root filename : string) (stats : Stats) :
  ext_of w filename = ".pdf" ->
  scan_file w encoder root filename stats =
    (text <- extract_text_from_pdf w (OsPath.join root filename);;
     tokens <- count_tokens text encoder;;
     print (PInfoFile (OsPath.join root filename) tokens);;
     ret (record_pdf tokens stats)).
Proof.
  intros Hext. unfold scan_file. fold (ext_of w filename). rewrite Hext.
  rewrite (bool_decide_eq_false_2 _ pdf_not_excluded). reflexivity.
Qed.




(** ** [main] *)


Lemma main_existing (w : World) (args : Args) :
  os_path_exists w (base_path args) = true ->
  main w args =
    (encoder <- resolve_encoder w (model args);;
     stats <- scan_directory w encoder (base_path args);;
     print_summary stats).
Proof.
  intros Hex. unfold main. rewrite Hex. cbn [negb].
  now rewrite (bind_ret_l tt).
Qed.

Lemma main_resolved (w : World) (args : Args) (encoder : Encoding) :
  os_path_exists w (base_path args) = true ->
  resolve_encoder w (model args) = ([], Ret encoder) ->
  main w args =
    (stats <- scan_directory w encoder (base_path args);;
     print_summary stats).
Proof.
  intros Hex Hres. rewrite main_existing by assumption.
  rewrite Hres. apply (bind_ret_l encoder).
Qed.

Lemma main_scanned (w : World) (args : Args) (encoder : Encoding)
    (t : list event) (stats : Stats) :
  os_path_exists w (base_path args) = true ->
  resolve_encoder w (model args) = ([], Ret encoder) ->
  scan_directory w encoder (base_path args) = (t, Ret stats) ->
  main w args = (t ++ summary_lines stats, Ret tt).
Proof.
  intros Hex Hres Hscan. rewrite (main_resolved w args encoder) by assumption.
  rewrite Hscan. reflexivity.
Qed.

(** C5. When [tiktoken.encoding_for_model] raises [KeyError] for the
    model name and the encoding [cl100k_base] can be had, resolving the
    tokenizer prints nothing and yields that encoding; the run is the
    scan with it followed by the summary; and when that scan returns,
    the run ends normally with the eight lines of the summary block
    (the rule and the seven aggregates) after the scan's output. *)
Theorem unknown_model_uses_default
    (w : World) (args : Args) (key : string) (default : Encoding) :
  os_path_exists w (base_path args) = true ->
  encoding_for_model w (model args) = Raise (KeyError key) ->
  get_encoding w "cl100k_base" = Ret default ->
  resolve_encoder w (model args) = ([], Ret default) /\
  main w args =
    (stats <- scan_directory w default (base_path args);;
     print_summary stats) /\
  (forall (t : list event) (stats : Stats),
      scan_directory w default (base_path args) = (t, Ret stats) ->
      main w args = (t ++ summary_lines stats, Ret tt)).
Proof.
  intros Hex Hkey Hdef.
  assert (Hres : resolve_encoder w (model args) = ([], Ret default)).
  { unfold resolve_encoder. rewrite Hkey, Hdef. reflexivity. }
  split; [exact Hres |]. split.
  - now apply main_resolved.
  - intros t stats Hscan. now apply (main_scanned w args default).
Qed.

Lemma unknown_model_uses_default_witness :
  resolve_encoder Demo.world "no-such-model" = ([], Ret Demo.cl100k_base) /\
  main Demo.world {| base_path := "/data"; model := "no-such-model" |} =
    (stats <- scan_directory Demo.world Demo.cl100k_base "/data";;
     print_summary stats) /\
  (forall (t : list event) (stats : Stats),
      scan_directory Demo.world Demo.cl100k_base "/data" = (t, Ret stats) ->
      main Demo.world {| base_path := "/data"; model := "no-such-model" |}
        = (t ++ summary_lines stats, Ret tt)).
Proof.
  apply (unknown_model_uses_default Demo.world
           {| base_path := "/data"; model := "no-such-model" |}
           "Could not automatically map the model to a tokeniser"
           Demo.cl100k_base);
    reflexivity.
Defined.

(** *** An empty directory *)

Lemma scan_files_nil (w : World) (encoder : Encoding) (root : string) (stats : Stats) :
  scan_files w encoder root [] stats = ([], Ret stats).
Proof. reflexivity. Qed.

Lemma scan_walk_no_files (w : World) (encoder : Encoding)
    (triples : list (string * list string * list string)) (stats : Stats) :
  walked_files triples = [] ->
  scan_walk w encoder triples stats = ([], Ret stats).
Proof.
  induction triples as [| [[root dirs] files] rest IH]; [reflexivity |].
  cbn. intros H. apply app_eq_nil in H as [Hfiles Hrest].
  apply map_eq_nil in Hfiles. subst files.
  rewrite scan_files_nil, bind_Ret, (IH Hrest). reflexivity.
Qed.

(** C6. For a base path that exists and under which the walk finds no
    file, with the tokenizer resolved, the run ends normally and prints
    the summary block and nothing else: the four counters are 0, the
    total is numpy's sum of no numbers, [0.0], and mean and median are
    numpy's not-a-number, the value [np.mean] and [np.median] return for
    an empty sequence instead of raising. *)
Theorem empty_directory_summary
    (w : World) (args : Args) (encoder : Encoding) :
  os_path_exists w (base_path args) = true ->
  resolve_encoder w (model args) = ([], Ret encoder) ->
  walked_files (os_walk (base_path args) (lookup_path w (base_path args))) = [] ->
  main w args =
    ([ EvPrint PRule;
       EvPrint (PTotalFiles 0);
       EvPrint (PPdfFiles 0);
       EvPrint (PTextFiles 0);
       EvPrint (PSkippedFiles 0);
       EvPrint (PTotalTokens (NpFloat 0));
       EvPrint (PAvgTokens NpNaN);
       EvPrint (PMedTokens NpNaN) ], Ret tt).
Proof.
  intros Hex Hres Hempty.
  rewrite (main_scanned w args encoder [] empty_stats Hex Hres); [reflexivity |].
  unfold scan_directory. now apply scan_walk_no_files.
Qed.

Lemma empty_directory_summary_witness :
  main Demo.world {| base_path := "/empty"; model := "gpt-4o" |} =
    ([ EvPrint PRule;
       EvPrint (PTotalFiles 0);
       EvPrint (PPdfFiles 0);
       EvPrint (PTextFiles 0);
       EvPrint (PSkippedFiles 0);
       EvPrint (PTotalTokens (NpFloat 0));
       EvPrint (PAvgTokens NpNaN);
       EvPrint (PMedTokens NpNaN) ], Ret tt).
Proof.
  apply (empty_directory_summary Demo.world
           {| base_path := "/empty"; model := "gpt-4o" |} Demo.o200k_base);
    reflexivity.
Defined.

(** *** A base path that does not exist *)




(** ** Which errors stay inside the processing of one file *)

Lemma bind_assoc {A B C} (m : M A) (k : A -> M B) (h : B -> M C) :
  bind (bind m k) h = bind m (fun a => bind (k a) h).
Proof.
  destruct m as [t [a | e]]; [| reflexivity].
  cbn. destruct (k a) as [t1 [b | e]]; cbn; [| reflexivity].
  destruct (h b) as [t2 r]. now rewrite app_assoc.
Qed.

Lemma bind_ext {A B} (m : M A) (k k' : A -> M B) :
  (forall a, k a = k' a) -> bind m k = bind m k'.
Proof.
  intros H. destruct m as [t [a | e]]; [| reflexivity].
  cbn. now rewrite H.
Qed.

Lemma extract_pages_uninterrupted (pages : list (res string)) :
  Forall raises_only_Exception pages ->
  forall text_parts, raises_only_Exception (snd (extract_pages pages text_parts)).
Proof.
  induction 1 as [| page rest Hpage Hrest IH]; intros text_parts e; cbn.
  - discriminate.
  - destruct page as [page_text | e'].
    + apply IH.
    + cbn. intros [= <-]. now apply Hpage.
Qed.

Lemma is_binary_file_returns (w : World) (filepath : string) :
  uninterrupted w ->
  exists t b, is_binary_file w filepath = (t, Ret b).
Proof.
  intros Hw. rewrite is_binary_file_eq.
  pose proof (bytes_uninterrupted w Hw filepath) as Hb.
  destruct (file_bytes w filepath) as [content | e]; [eauto |].
  specialize (Hb e eq_refl). destruct e; try discriminate Hb; cbn; eauto.
Qed.

Lemma extract_text_from_pdf_returns (w : World) (filepath : string) :
  uninterrupted w ->
  exists t text, extract_text_from_pdf w filepath = (t, Ret text).
Proof.
  intros Hw. unfold extract_text_from_pdf.
  assert (Hr : raises_only_Exception (snd (pdf_try_body w filepath []))).
  { unfold pdf_try_body.
    pose proof (pdf_uninterrupted w Hw filepath) as Hp.
    pose proof (pages_uninterrupted w Hw filepath) as Hpages.
    destruct (pdf_pages w filepath) as [pages | e].
    - apply extract_pages_uninterrupted. now apply Hpages.
    - cbn. intros e' [= <-]. now apply Hp. }
  destruct (pdf_try_body w filepath []) as [parts [[] | e]]; cbn in Hr.
  - cbn. eauto.
  - unfold emit, lift. cbn [bind app].
    rewrite except_Exception by now apply Hr.
    cbn. eauto.
Qed.

Lemma read_text_file_returns (w : World) (filepath : string) :
  uninterrupted w ->
  exists t text, read_text_file w filepath = (t, Ret text).
Proof.
  intros Hw. unfold read_text_file, emit, lift.
  pose proof (text_uninterrupted w Hw filepath) as Ht.
  destruct (file_text w filepath) as [text | e]; cbn [bind app].
  - rewrite except_Ret. eauto.
  - rewrite except_Exception by now apply Ht.
    cbn. eauto.
Qed.

Lemma count_tokens_returns (text : string) (encoder : Encoding) :
  accepts_all encoder ->
  exists t n, count_tokens text encoder = (t, Ret n).
Proof.
  intros Henc. rewrite count_tokens_eq. destruct text as [| c text']; [eauto |].
  destruct (Henc (String c text')) as [toks ->]. eauto.
Qed.

Lemma scan_file_returns (w : World) (encoder : Encoding)
    (root filename : string) (stats : Stats) :
  uninterrupted w -> accepts_all encoder ->
  exists t stats', scan_file w encoder root filename stats = (t, Ret stats').
Proof.
  intros Hw Henc. unfold scan_file.
  destruct (bool_decide _); [cbn; eauto |].
  destruct (String.eqb _ ".pdf").
  - destruct (extract_text_from_pdf_returns w (OsPath.join root filename) Hw)
      as (t1 & text & ->).
    destruct (count_tokens_returns text encoder Henc) as (t2 & n & Hn).
    rewrite bind_Ret. cbn [fst snd]. rewrite Hn. cbn. eauto.
  - destruct (is_binary_file_returns w (OsPath.join root filename) Hw)
      as (t0 & b & ->).
    rewrite bind_Ret. destruct b; cbn [fst snd]; [cbn; eauto |].
    destruct (read_text_file_returns w (OsPath.join root filename) Hw)
      as (t1 & text & ->).
    destruct (count_tokens_returns text encoder Henc) as (t2 & n & Hn).
    rewrite bind_Ret. cbn [fst snd]. rewrite Hn. cbn. eauto.
Qed.

Lemma scan_files_returns (w : World) (encoder : Encoding) (root : string)
    (files : list string) :
  uninterrupted w -> accepts_all encoder ->
  forall stats, exists t stats', scan_files w encoder root files stats = (t, Ret stats').
Proof.
  intros Hw Henc. induction files as [| filename rest IH]; intros stats.
  - cbn. eauto.
  - cbn. destruct (scan_file_returns w encoder root filename stats Hw Henc)
      as (t1 & st1 & ->).
    destruct (IH st1) as (t2 & st2 & H2).
    rewrite bind_Ret, H2. cbn. eauto.
Qed.

Lemma scan_walk_returns (w : World) (encoder : Encoding)
    (triples : list (string * list string * list string)) :
  uninterrupted w -> accepts_all encoder ->
  forall stats, exists t stats', scan_walk w encoder triples stats = (t, Ret stats').
Proof.
  intros Hw Henc. induction triples as [| [[root dirs] files] rest IH]; intros stats.
  - cbn. eauto.
  - cbn. destruct (scan_files_returns w encoder root files Hw Henc stats)
      as (t1 & st1 & ->).
    destruct (IH st1) as (t2 & st2 & H2).
    rewrite bind_Ret, H2. cbn. eauto.
Qed.

(** With a tokenizer that accepts every text, a run that is not
    interrupted and whose base path exists does print the summary. *)
Lemma main_completes (w : World) (args : Args) (encoder : Encoding) :
  os_path_exists w (base_path args) = true ->
  resolve_encoder w (model args) = ([], Ret encoder) ->
  uninterrupted w -> accepts_all encoder ->
  exists t stats, main w args = (t ++ summary_lines stats, Ret tt).
Proof.
  intros Hex Hres Hw Henc.
  destruct (scan_walk_returns w encoder
              (os_walk (base_path args) (lookup_path w (base_path args)))
              Hw Henc empty_stats) as (t & stats & Hscan).
  exists t, stats. now apply (main_scanned w args encoder).
Qed.

(** C9 fails on the code: [count_tokens] is called outside every [try].
    In [Demo.world_special] the base path exists, every file can be
    read and nothing is interrupted, but the text of [tokens.md] holds a
    special token, for which the encoder raises [ValueError]. The
    exception leaves the loop and [main]: the file [z.txt] is never
    opened and no line of the summary is printed. *)
Theorem encoder_error_aborts_run :
  os_path_exists Demo.world_special "/notes" = true /\
  uninterrupted Demo.world_special /\
  file_text Demo.world_special "/notes/tokens.md" = Ret "stop at <|endoftext|>" /\
  main Demo.world_special {| base_path := "/notes"; model := "gpt-4o" |}
  = ([ EvOpen "/notes/a.txt" "rb"; EvOpen "/notes/a.txt" "r";
       EvEncode "hi"; EvPrint (PInfoFile "/notes/a.txt" 2);
       EvOpen "/notes/tokens.md" "rb"; EvOpen "/notes/tokens.md" "r";
       EvEncode "stop at <|endoftext|>" ],
     Raise (OtherError "ValueError"
              "Encountered text corresponding to disallowed special token")).
Proof.
  split; [reflexivity |]. split; [| split; reflexivity].
  split; intros p; cbn.
  - intros e [=].
  - intros e [= <-]. reflexivity.
  - intros pages [=].
  - destruct (String.eqb p "/notes/tokens.md"); intros e [=].
Qed.

(** ** Pruning looks at directory names only *)

Lemma bind_ret_r {A} (m : M A) : bind m ret = m.
Proof.
  destruct m as [t [a | e]]; [| reflexivity].
  cbn. now rewrite app_nil_r.
Qed.

Lemma scan_each_app (w : World) (encoder : Encoding) (l1 l2 : list (string * string)) :
  forall stats,
    scan_each w encoder (l1 ++ l2) stats =
    (stats <- scan_each w encoder l1 stats;; scan_each w encoder l2 stats).
Proof.
  induction l1 as [| [root filename] rest IH]; intros stats.
  - cbn [app scan_each]. now rewrite bind_ret_l.
  - cbn [app scan_each]. rewrite bind_assoc. apply bind_ext. exact IH.
Qed.

Lemma scan_files_each (w : World) (encoder : Encoding) (root : string)
    (files : list string) :
  forall stats,
    scan_files w encoder root files stats
    = scan_each w encoder (map (pair root) files) stats.
Proof.
  induction files as [| filename rest IH]; intros stats; [reflexivity |].
  cbn. apply bind_ext. exact IH.
Qed.

Lemma scan_walk_each (w : World) (encoder : Encoding)
    (triples : list (string * list string * list string)) :
  forall stats,
    scan_walk w encoder triples stats
    = scan_each w encoder (walked_files triples) stats.
Proof.
  induction triples as [| [[root dirs] files] rest IH]; intros stats; [reflexivity |].
  cbn [scan_walk walked_files flat_map]. rewrite scan_each_app.
  rewrite scan_files_each. apply bind_ext. exact IH.
Qed.

Lemma walks_to_yielded (top : string) (entries : list fsnode)
    (root : string) (es : list fsnode) :
  walks_to top entries root es ->
  In (root, dirs_of es, files_of es)
     ((top, dirs_of entries, files_of entries) :: flat_map (walk_node top) entries).
Proof.
  induction 1 as [| top entries d sub root es Hin Hkeep _ IH].
  - now left.
  - right. apply in_flat_map. exists (FsDir d false (Some sub)).
    split; [assumption |]. cbn. rewrite Hkeep. exact IH.
Qed.

Lemma files_of_In (es : list fsnode) (name : string) :
  In (FsFile name) es -> In name (files_of es).
Proof.
  intros Hin. unfold files_of. apply in_flat_map.
  exists (FsFile name). split; [assumption | now left].
Qed.

Lemma walked_files_In (triples : list (string * list string * list string))
    (root : string) (dirs files : list string) (name : string) :
  In (root, dirs, files) triples -> In name files ->
  In (root, name) (walked_files triples).
Proof.
  intros Ht Hn. unfold walked_files. apply in_flat_map.
  exists (root, dirs, files). split; [assumption |].
  now apply in_map.
Qed.

(** A file that is neither excluded nor called binary by the sniff adds
    a sample. *)
Lemma scan_file_counts (w : World) (encoder : Encoding)
    (root filename : string) (stats stats' : Stats) (t : list event) :
  ext_of w filename ∉ EXCLUDED_EXTENSIONS ->
  ext_of w filename = ".pdf" \/
    snd (is_binary_file w (OsPath.join root filename)) = Ret false ->
  scan_file w encoder root filename stats = (t, Ret stats') ->
  exists n,
    In (EvPrint (PInfoFile (OsPath.join root filename) n)) t /\
    tokens stats' = tokens stats ++ [n] /\
    total_files stats' = total_files stats + 1 /\
    skipped_files stats' = skipped_files stats.
Proof.
  intros Hnex Hkind. unfold scan_file. fold (ext_of w filename).
  rewrite (bool_decide_eq_false_2 _ Hnex).
  destruct (String.eqb (ext_of w filename) ".pdf") eqn:Hpdf.
  - intros H.
    apply bind_inv_Ret in H as (t1 & text & t2 & _ & H & ->).
    apply bind_inv_Ret in H as (t3 & n & t4 & _ & H & ->).
    apply bind_inv_Ret in H as (t5 & [] & t6 & [= <-] & [= <- <-] & ->).
    exists n. split; [| now cbn].
    apply in_or_app. right. apply in_or_app. right. now left.
  - destruct Hkind as [Hp | Hbin].
    { apply String.eqb_neq in Hpdf. contradiction. }
    intros H.
    apply bind_inv_Ret in H as (t1 & binary & t2 & Hb & H & ->).
    rewrite Hb in Hbin. injection Hbin as ->.
    apply bind_inv_Ret in H as (t3 & text & t4 & _ & H & ->).
    apply bind_inv_Ret in H as (t5 & n & t6 & _ & H & ->).
    apply bind_inv_Ret in H as (t7 & [] & t8 & [= <-] & [= <- <-] & ->).
    exists n. split; [| now cbn].
    do 3 (apply in_or_app; right). now left.
Qed.

(** C10. Let a file whose name starts with a dot lie in a directory
    the walk comes to (through directories it keeps). The file is among
    the files the scan goes through, and the scan is: the loop body on
    the files before it, then the loop body on this file, then on the
    files after it. When the file is not excluded by its extension and
    is a PDF or not binary for the sniff, the body records a token count
    for it, prints its line and adds one to [total_files], leaving
    [skipped_files] as it was. *)
Theorem dot_files_are_scanned
    (w : World) (encoder : Encoding) (base : string) (entries : list fsnode)
    (root : string) (es : list fsnode) (name : string) :
  PyStr.startswith "." name = true ->
  lookup_path w base = Listable entries ->
  walks_to base entries root es ->
  In (FsFile name) es ->
  (exists before after,
     walked_files (os_walk base (lookup_path w base))
       = before ++ (root, name) :: after /\
     scan_directory w encoder base =
       (stats <- scan_each w encoder before empty_stats;;
        stats <- scan_file w encoder root name stats;;
        scan_each w encoder after stats)) /\
  (forall (stats stats' : Stats) (t : list event),
     ext_of w name ∉ EXCLUDED_EXTENSIONS ->
     ext_of w name = ".pdf" \/
       snd (is_binary_file w (OsPath.join root name)) = Ret false ->
     scan_file w encoder root name stats = (t, Ret stats') ->
     exists n,
       In (EvPrint (PInfoFile (OsPath.join root name) n)) t /\
       tokens stats' = tokens stats ++ [n] /\
       total_files stats' = total_files stats + 1 /\
       skipped_files stats' = skipped_files stats).
Proof.
  intros _ Hlookup Hwalk Hfile. split.
  - assert (Hin : In (root, name) (walked_files (os_walk base (lookup_path w base)))).
    { rewrite Hlookup. cbn [os_walk].
      eapply walked_files_In.
      - apply walks_to_yielded. exact Hwalk.
      - now apply files_of_In. }
    apply in_split in Hin as (before & after & Hsplit).
    exists before, after. split; [exact Hsplit |].
    unfold scan_directory. rewrite scan_walk_each, Hsplit.
    rewrite scan_each_app. reflexivity.
  - intros stats stats' t. apply scan_file_counts.
Qed.

Lemma dot_files_are_scanned_witness :
  (exists before after,
     walked_files (os_walk "/data" (lookup_path Demo.world "/data"))
       = before ++ ("/data/sub", ".hidden.md") :: after /\
     scan_directory Demo.world Demo.o200k_base "/data" =
       (stats <- scan_each Demo.world Demo.o200k_base before empty_stats;;
        stats <- scan_file Demo.world Demo.o200k_base "/data/sub" ".hidden.md" stats;;
        scan_each Demo.world Demo.o200k_base after stats)) /\
  (exists n,
     In (EvPrint (PInfoFile (OsPath.join "/data/sub" ".hidden.md") n))
        [EvOpen "/data/sub/.hidden.md" "rb"; EvOpen "/data/sub/.hidden.md" "r";
         EvEncode "#"; EvPrint (PInfoFile "/data/sub/.hidden.md" 1)] /\
     tokens Demo.hidden_stats = tokens empty_stats ++ [n] /\
     total_files Demo.hidden_stats = total_files empty_stats + 1 /\
     skipped_files Demo.hidden_stats = skipped_files empty_stats).
Proof.
  assert (Hwalk : walks_to "/data" Demo.tree "/data/sub"
                    [FsFile ".hidden.md"; FsFile "locked"]).
  { eapply (walks_down "/data" Demo.tree "sub").
    - cbn. do 8 right. left. reflexivity.
    - vm_compute. reflexivity.
    - apply walks_here. }
  destruct (dot_files_are_scanned Demo.world Demo.o200k_base "/data" Demo.tree
              "/data/sub" [FsFile ".hidden.md"; FsFile "locked"] ".hidden.md"
              eq_refl eq_refl Hwalk (or_introl eq_refl)) as [Hscan Hcount].
  split; [exact Hscan |].
  apply (Hcount empty_stats Demo.hidden_stats).
  - apply (bool_decide_unpack _). vm_compute. exact I.
  - right. vm_compute. reflexivity.
  - vm_compute. reflexivity.
Defined.

(** * Further properties of the code *)

(** ** The readers *)

Lemma read_text_file_eq (w : World) (filepath : string) :
  read_text_file w filepath =
  match file_text w filepath with
  | Ret text => ([EvOpen filepath "r"], Ret text)
  | Raise KeyboardInterrupt => ([EvOpen filepath "r"], Raise (SystemExit 0))
  | Raise e =>
      if is_Exception e then
        ([EvOpen filepath "r"; EvPrint (PWarnText filepath); EvPrint (PExn e)],
         Ret "")
      else ([EvOpen filepath "r"], Raise e)
  end.
Proof.
  unfold read_text_file, emit, lift.
  destruct (file_text w filepath) as [text | e]; [reflexivity |].
  destruct e; reflexivity.
Qed.



Lemma extract_pages_eq (pages : list (res string)) :
  forall text_parts,
    extract_pages pages text_parts
    = (text_parts ++ List.filter PyStr.truthy (pages_before_failure pages),
       first_failure pages).
Proof.
  induction pages as [| [page_text | e] rest IH]; intros text_parts; cbn.
  - now rewrite app_nil_r.
  - rewrite IH. destruct (PyStr.truthy page_text); [| reflexivity].
    now rewrite <- app_assoc.
  - now rewrite app_nil_r.
Qed.

Lemma extract_text_from_pdf_trace (w : World) (filepath : string) :
  fst (extract_text_from_pdf w filepath) =
  EvOpen filepath "rb" ::
    match snd (pdf_try_body w filepath []) with
    | Ret _ => []
    | Raise e =>
        if is_Exception e
        then [EvPrint (PWarnPdf filepath); EvPrint (PExn e)] else []
    end.
Proof.
  unfold extract_text_from_pdf.
  destruct (pdf_try_body w filepath []) as [parts [[] | e]]; [reflexivity |].
  destruct e; reflexivity.
Qed.

(** X2. The text [extract_text_from_pdf] returns for a document that
    could be opened is made of the texts of the pages before the first
    page whose extraction raises (all pages, if none does), in document
    order, the empty ones left out, joined by single newlines. When no
    page raises, the file is opened once and nothing is printed. *)
Theorem pdf_text_is_joined_pages
    (w : World) (filepath : string) (pages : list (res string)) :
  pdf_pages w filepath = Ret pages ->
  (forall t text,
     extract_text_from_pdf w filepath = (t, Ret text) ->
     text = PyStr.join newline
              (List.filter PyStr.truthy (pages_before_failure pages))) /\
  (first_failure pages = Ret tt ->
     extract_text_from_pdf w filepath
     = ([EvOpen filepath "rb"],
        Ret (PyStr.join newline
               (List.filter PyStr.truthy (pages_before_failure pages))))).
Proof.
  intros Hpages.
  assert (Hbody : pdf_try_body w filepath []
                  = (List.filter PyStr.truthy (pages_before_failure pages),
                     first_failure pages)).
  { unfold pdf_try_body. rewrite Hpages. apply extract_pages_eq. }
  unfold extract_text_from_pdf. rewrite Hbody. split.
  - intros t text H.
    apply bind_inv_Ret in H as (t1 & [] & t2 & _ & [= _ <-] & _).
    reflexivity.
  - intros ->. reflexivity.
Qed.

Lemma pdf_text_is_joined_pages_witness :
  extract_text_from_pdf Demo.world_corpus "/corpus/good.pdf"
  = ([EvOpen "/corpus/good.pdf" "rb"],
     Ret (PyStr.join newline
            (List.filter PyStr.truthy
               (pages_before_failure [Ret "a"; Ret ""; Ret "b"])))).
Proof.
  apply (proj2 (pdf_text_is_joined_pages Demo.world_corpus "/corpus/good.pdf"
                  [Ret "a"; Ret ""; Ret "b"] eq_refl)).
  reflexivity.
Defined.

Example good_pdf_text :
  snd (extract_text_from_pdf Demo.world_corpus "/corpus/good.pdf")
  = Ret (String "a" (String "010" "b")).
Proof. reflexivity. Qed.

(** ** The traces of a scan *)

Lemma bind_fst {A B} (m : M A) (k : A -> M B) :
  fst (bind m k)
  = fst m ++ match snd m with Ret a => fst (k a) | Raise _ => [] end.
Proof.
  destruct m as [t [a | e]]; cbn.
  - now destruct (k a).
  - now rewrite app_nil_r.
Qed.

Lemma bind_inv_Raise {A B} (m : M A) (k : A -> M B) (t : list event) (e : exn) :
  bind m k = (t, Raise e) ->
  m = (t, Raise e) \/
  exists t1 a t2, m = (t1, Ret a) /\ k a = (t2, Raise e) /\ t = t1 ++ t2.
Proof.
  destruct m as [t1 [a | e']]; cbn.
  - destruct (k a) as [t2 r] eqn:Hk. intros [= <- ->].
    right. exists t1, a, t2. auto.
  - intros [= <- <-]. now left.
Qed.

Lemma Forall_bind {A B} (P : event -> Prop) (m : M A) (k : A -> M B) :
  Forall P (fst m) ->
  (forall a, snd m = Ret a -> Forall P (fst (k a))) ->
  Forall P (fst (bind m k)).
Proof.
  intros Hm Hk. rewrite bind_fst. apply Forall_app. split; [assumption |].
  destruct (snd m) as [a | e]; [now apply Hk | constructor].
Qed.

(** Goals [Forall (file_event p) t] for an explicit trace [t]. *)
Ltac events_of_file :=
  repeat first [apply List.Forall_nil | apply List.Forall_cons]; cbn; auto.

Lemma count_tokens_events (filepath text : string) (encoder : Encoding) :
  Forall (file_event filepath) (fst (count_tokens text encoder)).
Proof.
  rewrite count_tokens_eq. destruct text; events_of_file.
Qed.

Lemma is_binary_file_events (w : World) (filepath : string) :
  Forall (file_event filepath) (fst (is_binary_file w filepath)).
Proof.
  rewrite is_binary_file_eq.
  destruct (file_bytes w filepath) as [c | e]; [| destruct e; cbn];
    events_of_file.
Qed.

Lemma extract_text_from_pdf_events (w : World) (filepath : string) :
  Forall (file_event filepath) (fst (extract_text_from_pdf w filepath)).
Proof.
  rewrite extract_text_from_pdf_trace.
  destruct (snd (pdf_try_body w filepath [])) as [u | e];
    [| destruct (is_Exception e)]; events_of_file.
Qed.

Lemma read_text_file_events (w : World) (filepath : string) :
  Forall (file_event filepath) (fst (read_text_file w filepath)).
Proof.
  rewrite read_text_file_eq.
  destruct (file_text w filepath) as [text | e]; [| destruct e; cbn];
    events_of_file.
Qed.

(** What the loop body does for a file stays with that file, and for an
    excluded file it is nothing. *)
Lemma scan_file_events (w : World) (encoder : Encoding)
    (root filename : string) (stats : Stats) :
  Forall (file_event (OsPath.join root filename))
         (fst (scan_file w encoder root filename stats)) /\
  (ext_of w filename ∈ EXCLUDED_EXTENSIONS ->
   fst (scan_file w encoder root filename stats) = []).
Proof.
  unfold scan_file. fold (ext_of w filename).
  destruct (bool_decide (ext_of w filename ∈ EXCLUDED_EXTENSIONS)) eqn:Hex.
  { split; [constructor | reflexivity]. }
  apply bool_decide_eq_false in Hex.
  split; [| intros Hin; contradiction].
  destruct (String.eqb _ ".pdf").
  - apply Forall_bind; [apply extract_text_from_pdf_events |]. intros text _.
    apply Forall_bind; [apply count_tokens_events |]. intros n _.
    events_of_file.
  - apply Forall_bind; [apply is_binary_file_events |]. intros [] _.
    { constructor. }
    apply Forall_bind; [apply read_text_file_events |]. intros text _.
    apply Forall_bind; [apply count_tokens_events |]. intros n _.
    events_of_file.
Qed.

Lemma scan_event_mono (w : World) (x : string * string) (l : list (string * string)) (ev : event) :
  scan_event w l ev -> scan_event w (x :: l) ev.
Proof.
  intros (root & filename & Hin & Hex & Hev).
  exists root, filename. split; [now right | auto].
Qed.

Lemma scan_each_events (w : World) (encoder : Encoding) (l : list (string * string)) :
  forall stats, Forall (scan_event w l) (fst (scan_each w encoder l stats)).
Proof.
  induction l as [| [root filename] rest IH]; intros stats; [constructor |].
  cbn [scan_each]. apply Forall_bind.
  - destruct (scan_file_events w encoder root filename stats) as [Hev Hnone].
    destruct (decide (ext_of w filename ∈ EXCLUDED_EXTENSIONS)) as [Hex | Hex].
    + rewrite (Hnone Hex). constructor.
    + eapply List.Forall_impl; [| exact Hev].
      intros ev Hfile. exists root, filename. split; [now left | auto].
  - intros st _. eapply List.Forall_impl; [| apply IH].
    intros ev. apply scan_event_mono.
Qed.

Lemma scan_directory_events (w : World) (encoder : Encoding) (base : string) :
  Forall (scan_event w (walked_files (os_walk base (lookup_path w base))))
         (fst (scan_directory w encoder base)).
Proof.
  unfold scan_directory. rewrite scan_walk_each. apply scan_each_events.
Qed.

(** X3. Whatever way the scan ends, every file it opened is a file the
    walk yielded, named by joining the directory the walk reported and
    the file name, and its extension is not in the exclusion set; the
    modes it opens files in are [rb] and [r]. *)
Theorem scan_opens_only_walked_files
    (w : World) (encoder : Encoding) (base : string) (p mode : string) :
  In (EvOpen p mode) (fst (scan_directory w encoder base)) ->
  exists root filename,
    In (root, filename) (walked_files (os_walk base (lookup_path w base))) /\
    p = OsPath.join root filename /\
    (ext_of w filename ∉ EXCLUDED_EXTENSIONS) /\
    (mode = "rb" \/ mode = "r").
Proof.
  intros Hin.
  pose proof (scan_directory_events w encoder base) as Hall.
  rewrite List.Forall_forall in Hall.
  destruct (Hall _ Hin) as (root & filename & Hw & Hex & Hp & Hmode).
  exists root, filename. auto.
Qed.

Lemma scan_opens_only_walked_files_witness :
  exists root filename,
    In (root, filename)
       (walked_files (os_walk "/corpus" (lookup_path Demo.world_corpus "/corpus"))) /\
    "/corpus/docs/README.MD" = OsPath.join root filename /\
    (ext_of Demo.world_corpus filename ∉ EXCLUDED_EXTENSIONS) /\
    ("r" = "rb" \/ "r" = "r").
Proof.
  apply (scan_opens_only_walked_files Demo.world_corpus Demo.o200k_base "/corpus").
  vm_compute. repeat first [left; reflexivity | right].
Defined.

(** ** The info lines and the recorded counts *)

Lemma info_counts_app (t1 t2 : list event) :
  info_counts (t1 ++ t2) = info_counts t1 ++ info_counts t2.
Proof. unfold info_counts. apply flat_map_app. Qed.

Lemma info_counts_is_binary_file (w : World) (filepath : string) :
  info_counts (fst (is_binary_file w filepath)) = [].
Proof.
  rewrite is_binary_file_eq.
  destruct (file_bytes w filepath) as [c | e]; [| destruct e]; reflexivity.
Qed.

Lemma info_counts_extract_text_from_pdf (w : World) (filepath : string) :
  info_counts (fst (extract_text_from_pdf w filepath)) = [].
Proof.
  rewrite extract_text_from_pdf_trace.
  destruct (snd (pdf_try_body w filepath [])) as [u | e];
    [| destruct (is_Exception e)]; reflexivity.
Qed.

Lemma info_counts_read_text_file (w : World) (filepath : string) :
  info_counts (fst (read_text_file w filepath)) = [].
Proof.
  rewrite read_text_file_eq.
  destruct (file_text w filepath) as [c | e]; [| destruct e]; reflexivity.
Qed.

Lemma info_counts_count_tokens (text : string) (encoder : Encoding) :
  info_counts (fst (count_tokens text encoder)) = [].
Proof. rewrite count_tokens_eq. destruct text; reflexivity. Qed.

Lemma scan_file_info (w : World) (encoder : Encoding)
    (root filename : string) (stats stats' : Stats) (t : list event) :
  scan_file w encoder root filename stats = (t, Ret stats') ->
  tokens stats' = tokens stats ++ info_counts t.
Proof.
  unfold scan_file.
  destruct (bool_decide _).
  { intros [= <- <-]. cbn. now rewrite app_nil_r. }
  destruct (String.eqb _ ".pdf").
  - intros H.
    apply bind_inv_Ret in H as (t1 & text & t2 & H1 & H & ->).
    apply bind_inv_Ret in H as (t3 & n & t4 & H3 & H & ->).
    apply bind_inv_Ret in H as (t5 & [] & t6 & [= <-] & [= <- <-] & ->).
    pose proof (info_counts_extract_text_from_pdf w (OsPath.join root filename)) as E1.
    pose proof (info_counts_count_tokens text encoder) as E3.
    rewrite H1 in E1. rewrite H3 in E3. cbn [fst] in E1, E3.
    rewrite !info_counts_app, E1, E3. reflexivity.
  - intros H.
    apply bind_inv_Ret in H as (t0 & binary & t0' & H0 & H & ->).
    pose proof (info_counts_is_binary_file w (OsPath.join root filename)) as E0.
    rewrite H0 in E0. cbn [fst] in E0.
    destruct binary.
    { injection H as <- <-. rewrite info_counts_app, E0. cbn. now rewrite app_nil_r. }
    apply bind_inv_Ret in H as (t1 & text & t2 & H1 & H & ->).
    apply bind_inv_Ret in H as (t3 & n & t4 & H3 & H & ->).
    apply bind_inv_Ret in H as (t5 & [] & t6 & [= <-] & [= <- <-] & ->).
    pose proof (info_counts_read_text_file w (OsPath.join root filename)) as E1.
    pose proof (info_counts_count_tokens text encoder) as E3.
    rewrite H1 in E1. rewrite H3 in E3. cbn [fst] in E1, E3.
    rewrite !info_counts_app, E0, E1, E3. reflexivity.
Qed.

Lemma scan_each_info (w : World) (encoder : Encoding) (l : list (string * string)) :
  forall (stats stats' : Stats) (t : list event),
    scan_each w encoder l stats = (t, Ret stats') ->
    tokens stats' = tokens stats ++ info_counts t.
Proof.
  induction l as [| [root filename] rest IH]; intros stats stats' t H.
  - injection H as <- <-. cbn. now rewrite app_nil_r.
  - cbn [scan_each] in H.
    apply bind_inv_Ret in H as (t1 & st1 & t2 & H1 & H2 & ->).
    apply scan_file_info in H1. apply IH in H2.
    rewrite H2, H1, info_counts_app. now rewrite app_assoc.
Qed.

(** X4. When [scan_directory] returns, the list of token counts in its
    statistics is the list of the counts shown in the per-file [info]
    lines it printed, in the order they were printed: one line per
    recorded count, none for a skipped file. *)
Theorem recorded_counts_are_printed
    (w : World) (encoder : Encoding) (base : string)
    (t : list event) (stats : Stats) :
  scan_directory w encoder base = (t, Ret stats) ->
  tokens stats = info_counts t.
Proof.
  unfold scan_directory. rewrite scan_walk_each. intros H.
  now apply scan_each_info in H.
Qed.

Lemma recorded_counts_are_printed_witness :
  [3; 0; 0; 0; 2; 2; 2; 2]
  = info_counts (fst (scan_directory Demo.world_corpus Demo.o200k_base "/corpus")).
Proof.
  apply (recorded_counts_are_printed Demo.world_corpus Demo.o200k_base "/corpus"
           (fst (scan_directory Demo.world_corpus Demo.o200k_base "/corpus"))
           {| tokens := [3; 0; 0; 0; 2; 2; 2; 2]; total_files := 8;
              pdf_files := 2; text_files := 6; skipped_files := 0 |}).
  vm_compute. reflexivity.
Defined.

(** ** Interrupts *)

Lemma scan_file_sniffed (w : World) (encoder : Encoding)
    (root filename : string) (stats : Stats) :
  (ext_of w filename ∉ EXCLUDED_EXTENSIONS) ->
  ext_of w filename <> ".pdf" ->
  scan_file w encoder root filename stats =
    (binary <- is_binary_file w (OsPath.join root filename);;
     if binary then ret (skip stats)
     else
       text <- read_text_file w (OsPath.join root filename);;
       tokens <- count_tokens text encoder;;
       print (PInfoFile (OsPath.join root filename) tokens);;
       ret (record_text tokens stats)).
Proof.
  intros Hnex Hnpdf. unfold scan_file. fold (ext_of w filename).
  rewrite (bool_decide_eq_false_2 _ Hnex).
  apply String.eqb_neq in Hnpdf. now rewrite Hnpdf.
Qed.

(** X6. A [KeyboardInterrupt] while a file is sniffed, parsed as PDF
    or read as text ends the loop body with [SystemExit(0)]: after the
    opens made so far nothing is printed for the file, neither a warning
    nor an info line, the text of PDF pages already extracted is not
    counted, and no statistics are returned. *)
Theorem interrupt_exits_with_status_zero
    (w : World) (encoder : Encoding) (root filename : string) (stats : Stats) :
  let filepath := OsPath.join root filename in
  (ext_of w filename = ".pdf" ->
   snd (pdf_try_body w filepath []) = Raise KeyboardInterrupt ->
   scan_file w encoder root filename stats
   = ([EvOpen filepath "rb"], Raise (SystemExit 0))) /\
  ((ext_of w filename ∉ EXCLUDED_EXTENSIONS) ->
   ext_of w filename <> ".pdf" ->
   file_bytes w filepath = Raise KeyboardInterrupt ->
   scan_file w encoder root filename stats
   = ([EvOpen filepath "rb"], Raise (SystemExit 0))) /\
  ((ext_of w filename ∉ EXCLUDED_EXTENSIONS) ->
   ext_of w filename <> ".pdf" ->
   snd (is_binary_file w filepath) = Ret false ->
   file_text w filepath = Raise KeyboardInterrupt ->
   scan_file w encoder root filename stats
   = ([EvOpen filepath "rb"; EvOpen filepath "r"], Raise (SystemExit 0))).
Proof.
  intros filepath. split; [| split].
  - intros Hext Hbody. rewrite scan_file_pdf by assumption. fold filepath.
    unfold extract_text_from_pdf.
    destruct (pdf_try_body w filepath []) as [parts r]. cbn in Hbody. subst r.
    reflexivity.
  - intros Hnex Hnpdf Hbytes. rewrite scan_file_sniffed by assumption.
    fold filepath. rewrite is_binary_file_eq, Hbytes. reflexivity.
  - intros Hnex Hnpdf Hbin Htext. rewrite scan_file_sniffed by assumption.
    fold filepath.
    pose proof (is_binary_file_eq w filepath) as Heq.
    destruct (is_binary_file w filepath) as [t0 r0]. cbn in Hbin. subst r0.
    assert (t0 = [EvOpen filepath "rb"]) as ->.
    { destruct (file_bytes w filepath) as [c | e]; [| destruct e; cbn in Heq];
        congruence. }
    rewrite bind_Ret. cbn [fst snd].
    rewrite read_text_file_eq, Htext. reflexivity.
Qed.

Lemma interrupt_exits_with_status_zero_witness :
  scan_file Demo.world_interrupted Demo.o200k_base "/notes" "c.pdf" empty_stats
  = ([EvOpen "/notes/c.pdf" "rb"], Raise (SystemExit 0)) /\
  scan_file Demo.world_interrupted Demo.o200k_base "/notes" "d.txt" empty_stats
  = ([EvOpen "/notes/d.txt" "rb"], Raise (SystemExit 0)) /\
  scan_file Demo.world_interrupted Demo.o200k_base "/notes" "b.txt" empty_stats
  = ([EvOpen "/notes/b.txt" "rb"; EvOpen "/notes/b.txt" "r"], Raise (SystemExit 0)).
Proof.
  split; [| split].
  - apply (proj1 (interrupt_exits_with_status_zero Demo.world_interrupted
                    Demo.o200k_base "/notes" "c.pdf" empty_stats));
      reflexivity.
  - apply (proj1 (proj2 (interrupt_exits_with_status_zero Demo.world_interrupted
                           Demo.o200k_base "/notes" "d.txt" empty_stats))).
    + apply (bool_decide_unpack _). vm_compute. exact I.
    + vm_compute. discriminate.
    + reflexivity.
  - apply (proj2 (proj2 (interrupt_exits_with_status_zero Demo.world_interrupted
                           Demo.o200k_base "/notes" "b.txt" empty_stats))).
    + apply (bool_decide_unpack _). vm_compute. exact I.
    + vm_compute. discriminate.
    + vm_compute. reflexivity.
    + reflexivity.
Defined.

(** ** The summary block *)






(** ** Resolving the tokenizer *)

(** X8. Only [KeyError] makes [main] fall back to [cl100k_base]. An
    interrupt of [tiktoken.encoding_for_model] ends the run with
    [SystemExit(0)]; any other exception of it, and any exception of
    the fallback call [tiktoken.get_encoding] (an interrupt included),
    leaves [main] as it is. In all three cases nothing has been printed
    and no file has been opened. *)
Theorem tokenizer_failure_ends_run (w : World) (args : Args) :
  os_path_exists w (base_path args) = true ->
  (encoding_for_model w (model args) = Raise KeyboardInterrupt ->
   main w args = ([], Raise (SystemExit 0))) /\
  (forall e, encoding_for_model w (model args) = Raise e ->
     e <> KeyboardInterrupt -> (forall key, e <> KeyError key) ->
     main w args = ([], Raise e)) /\
  (forall key e, encoding_for_model w (model args) = Raise (KeyError key) ->
     get_encoding w "cl100k_base" = Raise e ->
     main w args = ([], Raise e)).
Proof.
  intros Hex. rewrite main_existing by assumption. unfold resolve_encoder.
  split; [| split].
  - intros ->. reflexivity.
  - intros e -> Hki Hke. destruct e; try reflexivity.
    + contradiction.
    + now destruct (Hke key).
  - intros key e -> ->. reflexivity.
Qed.

Lemma tokenizer_failure_ends_run_witness :
  main Demo.world_interrupted {| base_path := "/notes"; model := "ctrl-c" |}
  = ([], Raise (SystemExit 0)) /\
  main Demo.world_interrupted {| base_path := "/notes"; model := "offline" |}
  = ([], Raise (OtherError "ConnectionError" "Failed to fetch the vocabulary")) /\
  main Demo.world_interrupted {| base_path := "/notes"; model := "no-such-model" |}
  = ([], Raise (OtherError "ConnectionError" "Failed to fetch the vocabulary")).
Proof.
  split; [| split].
  - apply (proj1 (tokenizer_failure_ends_run Demo.world_interrupted
                    {| base_path := "/notes"; model := "ctrl-c" |} eq_refl)).
    reflexivity.
  - apply (proj1 (proj2 (tokenizer_failure_ends_run Demo.world_interrupted
                    {| base_path := "/notes"; model := "offline" |} eq_refl))).
    + reflexivity.
    + discriminate.
    + discriminate.
  - apply (proj2 (proj2 (tokenizer_failure_ends_run Demo.world_interrupted
                    {| base_path := "/notes"; model := "no-such-model" |} eq_refl))
             "Could not automatically map the model to a tokeniser").
    + reflexivity.
    + reflexivity.
Defined.

(** ** Files without text *)




(** ** One text file *)

Lemma wrap64_small (z : Z) :
  (- 2 ^ 63 <= z < 2 ^ 63)%Z -> Np.wrap64 z = z.
Proof.
  intros H. unfold Np.wrap64. rewrite Z.mod_small; lia.
Qed.

(** X10. When the walk yields one file and the loop body counts it as
    a text file with [n] tokens, [n] at most 2^53, the summary shows 1
    file in total, 0 PDF files, 1 text file, 0 skipped files, [n]
    tokens in total, and a mean and a median equal to [n]. Up to 2^53
    every integer is a [float64], so that numpy's mean and median of the
    one count are that count exactly. *)
Theorem single_text_file_summary
    (w : World) (args : Args) (encoder : Encoding)
    (root filename : string) (n : nat) (t : list event) :
  os_path_exists w (base_path args) = true ->
  resolve_encoder w (model args) = ([], Ret encoder) ->
  walked_files (os_walk (base_path args) (lookup_path w (base_path args)))
    = [(root, filename)] ->
  scan_file w encoder root filename empty_stats
    = (t, Ret (record_text n empty_stats)) ->
  (Z.of_nat n <= 2 ^ 53)%Z ->
  exists mean median : Q,
    main w args
    = (t ++ [ EvPrint PRule;
              EvPrint (PTotalFiles 1);
              EvPrint (PPdfFiles 0);
              EvPrint (PTextFiles 1);
              EvPrint (PSkippedFiles 0);
              EvPrint (PTotalTokens (NpInt (Z.of_nat n)));
              EvPrint (PAvgTokens (NpFloat mean));
              EvPrint (PMedTokens (NpFloat median)) ], Ret tt) /\
    Qeq mean (inject_Z (Z.of_nat n)) /\
    Qeq median (inject_Z (Z.of_nat n)).
Proof.
  intros Hex Hres Hwalk Hscan Hn.
  assert (Hdir : scan_directory w encoder (base_path args)
                 = (t, Ret (record_text n empty_stats))).
  { unfold scan_directory. rewrite scan_walk_each, Hwalk. cbn [scan_each].
    rewrite Hscan, bind_Ret. cbn. now rewrite app_nil_r. }
  rewrite (main_scanned w args encoder _ _ Hex Hres Hdir).
  exists (inject_Z (0 + Z.of_nat n) / inject_Z (Z.of_nat 1))%Q,
         (inject_Z (Z.of_nat n)).
  split; [| split].
  - unfold summary_lines, record_text, empty_stats. cbn [tokens total_files
      pdf_files text_files skipped_files app Nat.add].
    unfold Np.sum, Np.total. cbn [fold_left].
    rewrite Z.add_0_l, wrap64_small; [reflexivity |].
    split.
    + transitivity 0%Z; [vm_compute; discriminate | apply Nat2Z.is_nonneg].
    + eapply Z.le_lt_trans; [exact Hn | vm_compute; reflexivity].
  - change (Z.of_nat 1) with 1%Z.
    unfold Qeq, Qdiv, Qmult, Qinv, inject_Z. cbn [Qnum Qden].
    rewrite Z.add_0_l, !Z.mul_1_r. reflexivity.
  - reflexivity.
Qed.

Lemma single_text_file_summary_witness :
  exists mean median : Q,
    main Demo.world_corpus {| base_path := "/single"; model := "gpt-4o" |}
    = ([ EvOpen "/single/a.txt" "rb"; EvOpen "/single/a.txt" "r";
         EvEncode "ok"; EvPrint (PInfoFile "/single/a.txt" 2) ]
       ++ [ EvPrint PRule;
            EvPrint (PTotalFiles 1);
            EvPrint (PPdfFiles 0);
            EvPrint (PTextFiles 1);
            EvPrint (PSkippedFiles 0);
            EvPrint (PTotalTokens (NpInt (Z.of_nat 2)));
            EvPrint (PAvgTokens (NpFloat mean));
            EvPrint (PMedTokens (NpFloat median)) ], Ret tt) /\
    Qeq mean (inject_Z (Z.of_nat 2)) /\
    Qeq median (inject_Z (Z.of_nat 2)).
Proof.
  apply (single_text_file_summary Demo.world_corpus
           {| base_path := "/single"; model := "gpt-4o" |}
           Demo.o200k_base "/single" "a.txt" 2).
  - reflexivity.
  - reflexivity.
  - reflexivity.
  - reflexivity.
  - vm_compute. discriminate.
Defined.

(** ** The directories the walk yields *)

Lemma fs_size_In (x : fsnode) (l : list fsnode) :
  In x l -> fs_size x <= list_sum (map fs_size l).
Proof.
  induction l as [| y l IH]; [intros [] |].
  cbn [map]. change (list_sum (fs_size y :: map fs_size l))
    with (fs_size y + list_sum (map fs_size l)).
  intros [-> | Hin]; [lia |]. specialize (IH Hin). lia.
Qed.

Lemma walk_node_reached (k : nat) :
  forall (n : fsnode) (top root : string) (dirs files : list string),
    fs_size n <= k ->
    In (root, dirs, files) (walk_node top n) ->
    exists d sub es,
      n = FsDir d false (Some sub) /\ keep_dir d = true /\
      walks_to (OsPath.join top d) sub root es /\
      dirs = dirs_of es /\ files = files_of es.
Proof.
  induction k as [| k IH]; intros n top root dirs files Hsize Hin.
  { destruct n as [f | d l [es |]]; cbn [fs_size] in Hsize; lia. }
  destruct n as [f | d islink [entries |]]; cbn in Hin; try contradiction.
  - destruct (keep_dir d) eqn:Hkeep; [| contradiction].
    destruct islink; [contradiction |]. cbn in Hin.
    exists d, entries.
    destruct Hin as [[= <- <- <-] | Hin].
    + exists entries. repeat split; auto. apply walks_here.
    + apply in_flat_map in Hin as (x & Hx & Hin).
      assert (Hxk : fs_size x <= k).
      { pose proof (fs_size_In x entries Hx). cbn [fs_size] in Hsize. lia. }
      destruct (IH x _ _ _ _ Hxk Hin) as (d' & sub' & es & -> & Hk' & Hw & -> & ->).
      exists es. repeat split; auto.
      eapply walks_down; eassumption.
  - destruct (keep_dir d && negb islink); contradiction.
Qed.

(** X11. The directories [os.walk] yields under the filter the loop
    body puts on [dirs] are the base directory and the directories
    reached from it through directories whose names the filter keeps,
    that are not symbolic links and that can be listed; each is yielded
    with the names of all its directories and of all its files. No
    directory below a pruned, linked or unreadable directory is
    yielded. *)
Theorem walk_yields_kept_directories
    (base : string) (entries : list fsnode)
    (root : string) (dirs files : list string) :
  In (root, dirs, files) (os_walk base (Listable entries)) <->
  exists es,
    walks_to base entries root es /\
    dirs = dirs_of es /\ files = files_of es.
Proof.
  split.
  - cbn [os_walk]. intros [[= <- <- <-] | Hin].
    + exists entries. repeat split. apply walks_here.
    + apply in_flat_map in Hin as (x & Hx & Hin).
      destruct (walk_node_reached (fs_size x) x _ _ _ _ (Nat.le_refl _) Hin)
        as (d & sub & es & -> & Hkeep & Hw & -> & ->).
      exists es. repeat split. eapply walks_down; eassumption.
  - intros (es & Hw & -> & ->). cbn [os_walk]. now apply walks_to_yielded.
Qed.

Lemma walk_yields_kept_directories_witness :
  exists es,
    walks_to "/corpus" Demo.corpus "/corpus/docs" es /\
    [".cache"] = dirs_of es /\ ["README.MD"] = files_of es.
Proof.
  apply (proj1 (walk_yields_kept_directories "/corpus" Demo.corpus
                  "/corpus/docs" [".cache"] ["README.MD"])).
  vm_compute. right. left. reflexivity.
Defined.

Example corpus_walk :
  map fst (map fst (os_walk "/corpus" (Listable Demo.corpus)))
  = ["/corpus"; "/corpus/docs"].
Proof. vm_compute. reflexivity. Qed.

(** X12. The filter on [dirs] keeps exactly the names that do not
    start with a dot and are none of [node_modules], [__pycache__] and
    [venv]; the entry [.git] of the set literal changes nothing, since
    a name starting with a dot is dropped anyway. *)
Theorem keep_dir_spec (d : string) :
  keep_dir d = true <->
  PyStr.startswith "." d = false /\
  d <> "node_modules" /\ d <> "__pycache__" /\ d <> "venv".
Proof.
  unfold keep_dir, PRUNED_DIRS.
  rewrite andb_true_iff, negb_true_iff, bool_decide_eq_true.
  rewrite elem_of_list_to_set, !not_elem_of_cons.
  split.
  - intros (Hdot & H1 & H2 & H3 & _). auto.
  - intros (Hdot & H1 & H2 & H3). repeat split; auto.
    + intros ->. discriminate Hdot.
    + apply not_elem_of_nil.
Qed.

Lemma keep_dir_spec_witness :
  keep_dir "docs" = true.
Proof.
  apply (proj2 (keep_dir_spec "docs")).
  repeat split; discriminate.
Defined.

(** ** The window of the binary sniff *)

(** X13. A zero byte at offset 8192 or later is not seen by the
    sniff: a file whose first 8192 bytes hold no zero byte is reported
    as not binary, whatever follows them. *)
Theorem sniff_ignores_bytes_after_window
    (w : World) (filepath : string) (window rest : list byte) :
  file_bytes w filepath = Ret (window ++ rest) ->
  length window = SNIFF_SIZE ->
  ~ In x00 window ->
  is_binary_file w filepath = ([EvOpen filepath "rb"], Ret false).
Proof.
  intros Hbytes Hlen Hnone. rewrite is_binary_file_eq, Hbytes.
  rewrite <- Hlen, firstn_app, firstn_all, Nat.sub_diag, app_nil_r.
  f_equal. f_equal.
  destruct (existsb (Byte.eqb x00) window) eqn:Hex; [| reflexivity].
  apply existsb_x00 in Hex. contradiction.
Qed.

Lemma sniff_ignores_bytes_after_window_witness :
  is_binary_file Demo.world_corpus "/corpus/big.log"
  = ([EvOpen "/corpus/big.log" "rb"], Ret false).
Proof.
  apply (sniff_ignores_bytes_after_window Demo.world_corpus "/corpus/big.log"
           (repeat x61 SNIFF_SIZE) [x00]).
  - reflexivity.
  - vm_compute. reflexivity.
  - intros Hin. apply repeat_spec in Hin. discriminate Hin.
Defined.

(** ** The extension of a file name *)

Lemma rfind_from_absent (c : ascii) (s : string) :
  forall i, has_char c s = false -> PyStr.rfind_from c i s = (-1)%Z.
Proof.
  induction s as [| a s IH]; intros i; cbn; [reflexivity |].
  intros H. apply orb_false_iff in H as [Ha Hs].
  rewrite (IH _ Hs), Ha. reflexivity.
Qed.

Lemma rfind_from_bounds (c : ascii) (s : string) :
  forall i, (0 <= i)%Z ->
    PyStr.rfind_from c i s = (-1)%Z \/
    (i <= PyStr.rfind_from c i s < i + Z.of_nat (String.length s))%Z.
Proof.
  induction s as [| a s IH]; intros i Hi; cbn [PyStr.rfind_from]; [now left |].
  cbn [String.length]. rewrite Nat2Z.inj_succ.
  destruct (IH (i + 1)%Z ltac:(lia)) as [-> | Hr].
  - cbn. destruct (Ascii.eqb a c); [right; lia | now left].
  - destruct (0 <=? PyStr.rfind_from c (i + 1) s)%Z eqn:Hpos; [right; lia |].
    apply Z.leb_gt in Hpos. lia.
Qed.

Lemma rfind_from_get (c : ascii) (s : string) :
  forall i, (0 <= i)%Z ->
    (i <= PyStr.rfind_from c i s)%Z ->
    String.get (Z.to_nat (PyStr.rfind_from c i s - i)) s = Some c.
Proof.
  induction s as [| a s IH]; intros i Hi; cbn [PyStr.rfind_from]; [lia |].
  destruct (rfind_from_bounds c s (i + 1)%Z ltac:(lia)) as [Hr | Hr].
  - rewrite Hr. cbn. destruct (Ascii.eqb a c) eqn:Hac; [| lia].
    intros _. rewrite Z.sub_diag. cbn. apply Ascii.eqb_eq in Hac. now subst.
  - destruct (0 <=? PyStr.rfind_from c (i + 1) s)%Z eqn:Hpos.
    + intros _.
      replace (Z.to_nat (PyStr.rfind_from c (i + 1) s - i))
        with (S (Z.to_nat (PyStr.rfind_from c (i + 1) s - (i + 1)))) by lia.
      cbn [String.get]. apply IH; lia.
    + apply Z.leb_gt in Hpos. lia.
Qed.

Lemma splitext_no_dot (p : string) :
  has_char "." p = false -> OsPath.splitext p = (p, "").
Proof.
  intros H. unfold OsPath.splitext, PyStr.rfind.
  rewrite (rfind_from_absent OsPath.extsep p 0 H).
  destruct (rfind_from_bounds OsPath.sep p 0 ltac:(lia)) as [-> | Hr];
    [reflexivity |].
  destruct (_ <? _)%Z eqn:Hlt; [| reflexivity].
  apply Z.ltb_lt in Hlt. lia.
Qed.

Lemma splitext_leading_dot (s : string) :
  has_char "." s = false ->
  OsPath.splitext (String "." s) = (String "." s, "").
Proof.
  intros H. unfold OsPath.splitext, PyStr.rfind.
  cbn [PyStr.rfind_from].
  rewrite (rfind_from_absent OsPath.extsep s (0 + 1) H).
  cbn [Z.leb Z.compare Ascii.eqb Bool.eqb OsPath.extsep].
  destruct (rfind_from_bounds OsPath.sep s (0 + 1)%Z ltac:(lia)) as [-> | Hr].
  - reflexivity.
  - destruct (0 <=? _)%Z eqn:Hpos; [| apply Z.leb_gt in Hpos; lia].
    destruct (_ <? 0)%Z eqn:Hlt; [| reflexivity].
    apply Z.ltb_lt in Hlt. lia.
Qed.

Lemma empty_ext_not_excluded : "" ∉ EXCLUDED_EXTENSIONS.
Proof. apply (bool_decide_unpack _). vm_compute. exact I. Qed.

(** X14. A file name without a dot, and a file name whose only dot is
    its first character ([Makefile], [.gitignore], but also [.pdf] and
    [.png]), has the empty extension: the file is neither excluded nor
    parsed as a PDF, it is sniffed and, if not binary, read and counted
    as a text file. *)
Theorem name_without_extension_is_sniffed (filename : string) :
  has_char "." filename = false \/
  (exists s, filename = String "." s /\ has_char "." s = false) ->
  (forall w : World, ext_of w filename = "") /\
  forall (w : World) (encoder : Encoding) (root : string) (stats : Stats),
    scan_file w encoder root filename stats =
      (binary <- is_binary_file w (OsPath.join root filename);;
       if binary then ret (skip stats)
       else
         text <- read_text_file w (OsPath.join root filename);;
         tokens <- count_tokens text encoder;;
         print (PInfoFile (OsPath.join root filename) tokens);;
         ret (record_text tokens stats)).
Proof.
  intros H.
  assert (Hext : forall w : World, ext_of w filename = "").
  { intros w. unfold ext_of. destruct H as [H | (s & -> & H)].
    - now rewrite splitext_no_dot.
    - now rewrite splitext_leading_dot. }
  split; [exact Hext |].
  intros w encoder root stats. apply scan_file_sniffed; rewrite Hext.
  - exact empty_ext_not_excluded.
  - discriminate.
Qed.

Lemma name_without_extension_is_sniffed_witness :
  (forall w : World, ext_of w ".pdf" = "") /\
  forall (w : World) (encoder : Encoding) (root : string) (stats : Stats),
    scan_file w encoder root ".pdf" stats =
      (binary <- is_binary_file w (OsPath.join root ".pdf");;
       if binary then ret (skip stats)
       else
         text <- read_text_file w (OsPath.join root ".pdf");;
         tokens <- count_tokens text encoder;;
         print (PInfoFile (OsPath.join root ".pdf") tokens);;
         ret (record_text tokens stats)).
Proof.
  apply (name_without_extension_is_sniffed ".pdf").
  right. exists "pdf". split; reflexivity.
Defined.

(** *** Upper and lower case *)

Lemma lower_ascii_keeps (c a : ascii) :
  c = "."%char \/ c = "/"%char ->
  Ascii.eqb (PyStr.lower_ascii a) c = Ascii.eqb a c.
Proof.
  intros [-> | ->];
    destruct a as [[] [] [] [] [] [] [] []]; vm_compute; reflexivity.
Qed.

Lemma lower_ascii_idem (a : ascii) :
  PyStr.lower_ascii (PyStr.lower_ascii a) = PyStr.lower_ascii a.
Proof.
  destruct a as [[] [] [] [] [] [] [] []]; vm_compute; reflexivity.
Qed.

Lemma lower_idem (s : string) : PyStr.lower (PyStr.lower s) = PyStr.lower s.
Proof.
  induction s as [| a s IH]; cbn [PyStr.lower]; [reflexivity |].
  now rewrite lower_ascii_idem, IH.
Qed.

Lemma length_lower (s : string) : String.length (PyStr.lower s) = String.length s.
Proof. induction s as [| a s IH]; cbn; [reflexivity | now rewrite IH]. Qed.

Lemma rfind_from_lower (c : ascii) (s : string) :
  c = "."%char \/ c = "/"%char ->
  forall i, PyStr.rfind_from c i (PyStr.lower s) = PyStr.rfind_from c i s.
Proof.
  intros Hc. induction s as [| a s IH]; intros i; [reflexivity |].
  cbn [PyStr.lower PyStr.rfind_from]. now rewrite IH, lower_ascii_keeps.
Qed.

Lemma substring_lower (s : string) :
  forall n m, String.substring n m (PyStr.lower s)
              = PyStr.lower (String.substring n m s).
Proof.
  induction s as [| a s IH]; intros [| n] [| m]; cbn; try reflexivity.
  - now rewrite IH.
  - apply IH.
  - apply IH.
Qed.

Lemma has_non_dot_lower (p : string) (n : nat) :
  forall i, OsPath.has_non_dot (PyStr.lower p) i n = OsPath.has_non_dot p i n.
Proof.
  assert (Hget : forall s i,
            String.get i (PyStr.lower s)
            = match String.get i s with
              | Some c => Some (PyStr.lower_ascii c)
              | None => None
              end).
  { induction s as [| a s IH]; intros [| i]; cbn; auto. }
  induction n as [| n IH]; intros i; [reflexivity |].
  cbn [OsPath.has_non_dot]. rewrite Hget.
  destruct (String.get i p) as [c |]; [| reflexivity].
  rewrite lower_ascii_keeps by now left. now rewrite IH.
Qed.

Lemma splitext_lower (p : string) :
  OsPath.splitext (PyStr.lower p)
  = (PyStr.lower (fst (OsPath.splitext p)), PyStr.lower (snd (OsPath.splitext p))).
Proof.
  unfold OsPath.splitext, PyStr.rfind, PyStr.slice_to, PyStr.slice_from.
  rewrite !rfind_from_lower by (unfold OsPath.sep, OsPath.extsep; auto).
  rewrite has_non_dot_lower, length_lower, !substring_lower.
  destruct (_ <? _)%Z; [| reflexivity].
  destruct (OsPath.has_non_dot _ _ _); reflexivity.
Qed.

Lemma isascii_substring (s : string) :
  forall n m, PyStr.isascii s = true ->
              PyStr.isascii (String.substring n m s) = true.
Proof.
  induction s as [| a s IH]; intros [| n] [| m] H; cbn in *;
    try reflexivity; apply andb_true_iff in H as [Ha Hs].
  - now rewrite Ha, IH.
  - now apply IH.
  - now apply IH.
Qed.

Lemma isascii_splitext (p : string) :
  PyStr.isascii p = true -> PyStr.isascii (snd (OsPath.splitext p)) = true.
Proof.
  intros H. unfold OsPath.splitext, PyStr.slice_from.
  destruct (_ <? _)%Z; [| reflexivity].
  destruct (OsPath.has_non_dot _ _ _); [| reflexivity].
  now apply isascii_substring.
Qed.

Lemma ext_of_ascii (w : World) (name : string) :
  PyStr.isascii name = true ->
  ext_of w name = PyStr.lower (snd (OsPath.splitext name)).
Proof.
  intros H. unfold ext_of, str_lower. now rewrite isascii_splitext.
Qed.

(** X15. For file names made of ASCII characters, the extension test
    does not depend on upper and lower case: two such names that differ
    in case only have the same lowercased extension, and so are
    excluded, taken as PDF or sniffed alike. *)
Theorem extension_ignores_case (w : World) (name name' : string) :
  PyStr.isascii name = true ->
  PyStr.isascii name' = true ->
  PyStr.lower name = PyStr.lower name' ->
  ext_of w name = ext_of w name'.
Proof.
  intros Ha Ha' H. rewrite !ext_of_ascii by assumption.
  assert (Hl : forall n, PyStr.lower (snd (OsPath.splitext (PyStr.lower n)))
                         = PyStr.lower (snd (OsPath.splitext n))).
  { intros n. rewrite splitext_lower. cbn [snd]. apply lower_idem. }
  rewrite <- (Hl name), <- (Hl name'). now rewrite H.
Qed.

Lemma extension_ignores_case_witness :
  ext_of Demo.world "Photo.Final.JPEG" = ext_of Demo.world "photo.final.jpeg".
Proof.
  apply (extension_ignores_case Demo.world "Photo.Final.JPEG" "photo.final.jpeg");
    reflexivity.
Defined.

(** *** Stem and extension *)

Lemma append_empty_r (s : string) : (s ++ "")%string = s.
Proof.
  induction s as [| a s IH]; [reflexivity |].
  change (String a (s ++ "") = String a s). now rewrite IH.
Qed.

Lemma substring_all (s : string) : String.substring 0 (String.length s) s = s.
Proof. induction s as [| a s IH]; cbn; [reflexivity | now rewrite IH]. Qed.

Lemma substring_split (s : string) :
  forall n, n <= String.length s ->
    (String.substring 0 n s
     ++ String.substring n (String.length s - n) s)%string = s.
Proof.
  induction s as [| a s IH]; intros [| n] Hn; cbn in *; try reflexivity.
  - rewrite substring_all. reflexivity.
  - change (String a (String.substring 0 n s
                      ++ String.substring n (String.length s - n) s)%string
            = String a s).
    rewrite IH by lia. reflexivity.
Qed.

Lemma substring_head (s : string) :
  forall n c, String.get n s = Some c ->
    exists rest, String.substring n (String.length s - n) s = String c rest.
Proof.
  induction s as [| a s IH]; intros [| n] c; cbn; try discriminate.
  - intros [= ->]. eauto.
  - apply IH.
Qed.

(** X16. [os.path.splitext], as the loop body uses it, cuts the file
    name in two: the stem followed by the extension is the name again,
    and the extension is either empty or starts with a dot. *)
Theorem splitext_cuts_name (filename : string) :
  (fst (OsPath.splitext filename) ++ snd (OsPath.splitext filename))%string
    = filename /\
  (snd (OsPath.splitext filename) = "" \/
   exists rest, snd (OsPath.splitext filename) = String "." rest).
Proof.
  unfold OsPath.splitext, PyStr.rfind.
  destruct (_ <? _)%Z eqn:Hlt; cbn [fst snd];
    [| split; [apply append_empty_r | now left]].
  destruct (OsPath.has_non_dot _ _ _); cbn [fst snd];
    [| split; [apply append_empty_r | now left]].
  apply Z.ltb_lt in Hlt.
  pose proof (rfind_from_bounds OsPath.sep filename 0 ltac:(lia)) as Hsep.
  pose proof (rfind_from_bounds OsPath.extsep filename 0 ltac:(lia)) as Hdot.
  pose proof (rfind_from_get OsPath.extsep filename 0 ltac:(lia)) as Hget.
  set (dotIndex := PyStr.rfind_from OsPath.extsep 0 filename) in *.
  assert (Hrange : (0 <= dotIndex < Z.of_nat (String.length filename))%Z) by lia.
  unfold PyStr.slice_to, PyStr.slice_from. split.
  - apply substring_split. lia.
  - right. rewrite Z.sub_0_r in Hget.
    apply (substring_head filename _ OsPath.extsep). apply Hget. lia.
Qed.

Example splitext_archive :
  OsPath.splitext "backup.tar.GZ" = ("backup.tar", ".GZ").
Proof. reflexivity. Qed.

(** ** How often a file is opened *)

Lemma opened_paths_bind {A B} (m : M A) (k : A -> M B) :
  opened_paths (fst (bind m k))
  = opened_paths (fst m)
    ++ match snd m with Ret a => opened_paths (fst (k a)) | Raise _ => [] end.
Proof.
  rewrite bind_fst. unfold opened_paths. rewrite flat_map_app.
  now destruct (snd m).
Qed.

Lemma opened_paths_is_binary_file (w : World) (filepath : string) :
  opened_paths (fst (is_binary_file w filepath)) = [filepath].
Proof.
  rewrite is_binary_file_eq.
  destruct (file_bytes w filepath) as [c | e]; [| destruct e]; reflexivity.
Qed.

Lemma opened_paths_extract_text_from_pdf (w : World) (filepath : string) :
  opened_paths (fst (extract_text_from_pdf w filepath)) = [filepath].
Proof.
  rewrite extract_text_from_pdf_trace.
  destruct (snd (pdf_try_body w filepath [])) as [u | e];
    [| destruct (is_Exception e)]; reflexivity.
Qed.

Lemma opened_paths_read_text_file (w : World) (filepath : string) :
  opened_paths (fst (read_text_file w filepath)) = [filepath].
Proof.
  rewrite read_text_file_eq.
  destruct (file_text w filepath) as [c | e]; [| destruct e]; reflexivity.
Qed.

Lemma opened_paths_count_then_print (text : string) (encoder : Encoding)
    (k : nat -> M Stats) :
  (forall n, opened_paths (fst (k n)) = []) ->
  opened_paths (fst (bind (count_tokens text encoder) k)) = [].
Proof.
  intros Hk. rewrite opened_paths_bind, count_tokens_eq.
  destruct text as [| c text']; cbn [fst snd]; [apply Hk |].
  destruct (encode encoder _); cbn; [apply Hk | reflexivity].
Qed.

(** X17. The loop body opens an excluded file not at all, a [.pdf]
    file once, and any other file once for the sniff and, when the sniff
    returns [False], once more to read it: no file is opened more than
    twice, and nothing else is ever opened. *)
Theorem opens_per_file
    (w : World) (encoder : Encoding) (root filename : string) (stats : Stats) :
  let filepath := OsPath.join root filename in
  opened_paths (fst (scan_file w encoder root filename stats)) =
    if bool_decide (ext_of w filename ∈ EXCLUDED_EXTENSIONS) then []
    else if String.eqb (ext_of w filename) ".pdf" then [filepath]
    else match snd (is_binary_file w filepath) with
         | Ret false => [filepath; filepath]
         | _ => [filepath]
         end.
Proof.
  intros filepath. unfold scan_file. fold (ext_of w filename). fold filepath.
  destruct (bool_decide _); [reflexivity |].
  destruct (String.eqb _ ".pdf").
  - rewrite opened_paths_bind, opened_paths_extract_text_from_pdf.
    destruct (snd (extract_text_from_pdf w filepath)) as [text | e]; [| reflexivity].
    rewrite opened_paths_count_then_print; [reflexivity |].
    intros n. reflexivity.
  - rewrite opened_paths_bind, opened_paths_is_binary_file.
    destruct (snd (is_binary_file w filepath)) as [[] | e]; try reflexivity.
    rewrite opened_paths_bind, opened_paths_read_text_file.
    destruct (snd (read_text_file w filepath)) as [text | e]; [| reflexivity].
    rewrite opened_paths_count_then_print; [reflexivity |].
    intros n. reflexivity.
Qed.

Example opens_of_kelvin_clip :
  opened_paths
    (fst (scan_file Demo.world Demo.o200k_base "/data" Demo.kelvin_clip empty_stats))
  = [].
Proof. vm_compute. reflexivity. Qed.

Example opens_of_corpus :
  opened_paths (fst (scan_directory Demo.world Demo.o200k_base "/data"))
  = [ "/data/a.txt"; "/data/a.txt"; "/data/.env"; "/data/.env";
      "/data/doc.pdf"; "/data/blob"; "/data/bad.pdf";
      "/data/sub/.hidden.md"; "/data/sub/.hidden.md"; "/data/sub/locked" ].
Proof. vm_compute. reflexivity. Qed.

(** ** A base path that is no listable directory *)

(** X18. A base path that exists but cannot be listed (a regular
    file, a directory without read permission) is no error for [main]:
    [os.walk] yields nothing, no file is opened, and the run ends
    normally with the summary of an empty scan. *)
Theorem unlistable_base_path_gives_empty_summary
    (w : World) (args : Args) (encoder : Encoding) :
  lookup_path w (base_path args) = NotListable ->
  resolve_encoder w (model args) = ([], Ret encoder) ->
  main w args = (summary_lines empty_stats, Ret tt).
Proof.
  intros Hlookup Hres.
  assert (Hex : os_path_exists w (base_path args) = true).
  { unfold os_path_exists. now rewrite Hlookup. }
  rewrite (main_scanned w args encoder [] empty_stats Hex Hres); [reflexivity |].
  unfold scan_directory. now rewrite Hlookup.
Qed.

Lemma unlistable_base_path_gives_empty_summary_witness :
  main Demo.world_plain {| base_path := "/corpus.txt"; model := "gpt-4o" |}
  = (summary_lines empty_stats, Ret tt).
Proof.
  apply (unlistable_base_path_gives_empty_summary Demo.world_plain
           {| base_path := "/corpus.txt"; model := "gpt-4o" |}
           Demo.plain_encoding);
    reflexivity.
Defined.

(** ** A standard output that can refuse a line *)

Lemma print_accepts (out : printed -> res unit) (p : printed) :
  accepts_every_line out -> Stdout.print out p = print p.
Proof. intros H. unfold Stdout.print. now rewrite H. Qed.

Lemma except_ext {A} (m : M A) (h h' : exn -> M A) :
  (forall e, h e = h' e) ->
  except_interrupt_or_exception m h = except_interrupt_or_exception m h'.
Proof.
  intros H. destruct m as [t [a | e]]; [reflexivity |].
  destruct e; cbn; now rewrite ?H.
Qed.

(** On a standard output that takes every line the functions of
    [Stdout] are the functions of the sections above. *)
Lemma extract_text_from_pdf_accepts (out : printed -> res unit) (w : World)
    (filepath : string) :
  accepts_every_line out ->
  Stdout.extract_text_from_pdf out w filepath = extract_text_from_pdf w filepath.
Proof.
  intros H. unfold Stdout.extract_text_from_pdf, extract_text_from_pdf.
  destruct (pdf_try_body w filepath []) as [parts r].
  f_equal. apply except_ext. intros e. now rewrite !print_accepts.
Qed.

Lemma read_text_file_accepts (out : printed -> res unit) (w : World)
    (filepath : string) :
  accepts_every_line out ->
  Stdout.read_text_file out w filepath = read_text_file w filepath.
Proof.
  intros H. unfold Stdout.read_text_file, read_text_file.
  apply except_ext. intros e. now rewrite !print_accepts.
Qed.

Lemma scan_file_accepts (out : printed -> res unit) (w : World)
    (encoder : Encoding) (root filename : string) (stats : Stats) :
  accepts_every_line out ->
  Stdout.scan_file out w encoder root filename stats
  = scan_file w encoder root filename stats.
Proof.
  intros H. unfold Stdout.scan_file, scan_file.
  destruct (bool_decide _); [reflexivity |].
  destruct (String.eqb _ ".pdf").
  - rewrite extract_text_from_pdf_accepts by assumption.
    apply bind_ext. intros text. apply bind_ext. intros n.
    now rewrite print_accepts.
  - apply bind_ext. intros [|]; [reflexivity |].
    rewrite read_text_file_accepts by assumption.
    apply bind_ext. intros text. apply bind_ext. intros n.
    now rewrite print_accepts.
Qed.

Lemma scan_files_accepts (out : printed -> res unit) (w : World)
    (encoder : Encoding) (root : string) (files : list string) :
  accepts_every_line out ->
  forall stats,
    Stdout.scan_files out w encoder root files stats
    = scan_files w encoder root files stats.
Proof.
  intros H. induction files as [| filename rest IH]; intros stats; [reflexivity |].
  cbn. rewrite scan_file_accepts by assumption. apply bind_ext. exact IH.
Qed.

Lemma scan_directory_accepts (out : printed -> res unit) (w : World)
    (encoder : Encoding) (base : string) :
  accepts_every_line out ->
  Stdout.scan_directory out w encoder base = scan_directory w encoder base.
Proof.
  intros H. unfold Stdout.scan_directory, scan_directory.
  generalize empty_stats.
  induction (os_walk base (lookup_path w base)) as [| [[root dirs] files] rest IH];
    intros stats; [reflexivity |].
  cbn. rewrite scan_files_accepts by assumption. apply bind_ext. exact IH.
Qed.

Lemma print_summary_accepts (out : printed -> res unit) (stats : Stats) :
  accepts_every_line out -> Stdout.print_summary out stats = print_summary stats.
Proof.
  intros H. unfold Stdout.print_summary, print_summary.
  repeat (rewrite print_accepts by assumption;
          try (apply bind_ext; intros _)).
  reflexivity.
Qed.

Lemma main_accepts (out : printed -> res unit) (w : World) (args : Args) :
  accepts_every_line out -> Stdout.main out w args = main w args.
Proof.
  intros H. unfold Stdout.main, main.
  destruct (negb _).
  - now rewrite print_accepts.
  - apply bind_ext. intros _. apply bind_ext. intros encoder.
    rewrite scan_directory_accepts by assumption.
    apply bind_ext. intros stats. now apply print_summary_accepts.
Qed.

(** *** Which exceptions leave the scan *)

Lemma print_raises (out : printed -> res unit) (p : printed) (e : exn) :
  snd (Stdout.print out p) = Raise e -> refused out e.
Proof.
  unfold Stdout.print. destruct (out p) as [u | e'] eqn:Hout; cbn; [discriminate |].
  intros [= <-]. now exists p.
Qed.

Lemma bind_snd_Raise {A B} (m : M A) (k : A -> M B) (e : exn) :
  snd (bind m k) = Raise e ->
  snd m = Raise e \/ exists a, snd m = Ret a /\ snd (k a) = Raise e.
Proof.
  destruct m as [t [a | e']]; cbn.
  - destruct (k a) as [t' r] eqn:Hk. cbn. intros ->. right.
    exists a. now rewrite Hk.
  - intros [= <-]. now left.
Qed.

(** An [Exception] that leaves a [try] with the two handlers was raised
    by the second handler. *)
Lemma except_raises_Exception {A} (m : M A) (h : exn -> M A) (e : exn) :
  snd (except_interrupt_or_exception m h) = Raise e ->
  is_Exception e = true ->
  exists e0, snd (h e0) = Raise e.
Proof.
  destruct m as [t [a | e0]]; cbn; [discriminate |].
  destruct e0; cbn.
  - intros [= <-]. discriminate.
  - intros [= <-]. discriminate.
  - destruct (h (KeyError key)) as [t' r] eqn:Hh. cbn. intros -> _.
    exists (KeyError key). now rewrite Hh.
  - destruct (h (OtherError cls msg)) as [t' r] eqn:Hh. cbn. intros -> _.
    exists (OtherError cls msg). now rewrite Hh.
Qed.

Lemma read_text_file_raises (out : printed -> res unit) (w : World)
    (filepath : string) (e : exn) :
  snd (Stdout.read_text_file out w filepath) = Raise e ->
  is_Exception e = true ->
  refused out e.
Proof.
  intros H He. unfold Stdout.read_text_file in H.
  apply except_raises_Exception in H as [e0 H]; [| assumption].
  apply bind_snd_Raise in H as [H | ([] & _ & H)]; [now apply print_raises in H |].
  apply bind_snd_Raise in H as [H | ([] & _ & H)]; [now apply print_raises in H |].
  discriminate H.
Qed.

Lemma extract_text_from_pdf_raises (out : printed -> res unit) (w : World)
    (filepath : string) (e : exn) :
  snd (Stdout.extract_text_from_pdf out w filepath) = Raise e ->
  is_Exception e = true ->
  refused out e.
Proof.
  intros H He. unfold Stdout.extract_text_from_pdf in H.
  destruct (pdf_try_body w filepath []) as [parts r].
  apply bind_snd_Raise in H as [H | ([] & _ & H)]; [| discriminate H].
  apply except_raises_Exception in H as [e0 H]; [| assumption].
  apply bind_snd_Raise in H as [H | ([] & _ & H)]; now apply print_raises in H.
Qed.

Lemma is_binary_file_raises (w : World) (filepath : string) (e : exn) :
  snd (is_binary_file w filepath) = Raise e -> is_Exception e = false.
Proof.
  rewrite is_binary_file_eq.
  destruct (file_bytes w filepath) as [c | e0]; cbn; [discriminate |].
  destruct e0; cbn; intros [= <-]; reflexivity.
Qed.

(** Counting the tokens of a text and printing the info line. *)
Lemma count_and_print_raises (out : printed -> res unit) (encoder : Encoding)
    (text : string) (line : nat -> printed) (k : nat -> Stats)
    (t : list event) (e : exn) :
  (tokens <- count_tokens text encoder;;
   Stdout.print out (line tokens);;
   ret (k tokens)) = (t, Raise e) ->
  (t = [EvEncode text] /\ encode encoder text = Raise e) \/ refused out e.
Proof.
  intros H.
  apply bind_inv_Raise in H as [H | (t1 & n & t2 & _ & H & _)].
  - left. rewrite count_tokens_eq in H. destruct text as [| c text']; [discriminate H |].
    destruct (encode encoder (String c text')) as [toks | e']; [discriminate H |].
    injection H as <- <-. auto.
  - right. apply bind_inv_Raise in H as [H | (t3 & [] & t4 & _ & H & _)];
      [| discriminate H].
    apply (print_raises out (line n)). now rewrite H.
Qed.

Lemma scan_file_raises (out : printed -> res unit) (w : World) (encoder : Encoding)
    (root filename : string) (stats : Stats) (t : list event) (e : exn) :
  Stdout.scan_file out w encoder root filename stats = (t, Raise e) ->
  is_Exception e = true ->
  (exists t' text, t = t' ++ [EvEncode text] /\ encode encoder text = Raise e) \/
  refused out e.
Proof.
  unfold Stdout.scan_file. intros H He.
  destruct (bool_decide _); [discriminate H |].
  destruct (String.eqb _ ".pdf").
  - apply bind_inv_Raise in H as [H | (t1 & text & t2 & _ & H & ->)].
    + right. apply (extract_text_from_pdf_raises out w (OsPath.join root filename));
        [now rewrite H | assumption].
    + apply (count_and_print_raises out encoder text
               (PInfoFile (OsPath.join root filename))
               (fun n => record_pdf n stats)) in H as [[-> Henc] | Hout];
        [left; eauto | now right].
  - apply bind_inv_Raise in H as [H | (t0 & binary & t0' & _ & H & ->)].
    { pose proof (is_binary_file_raises w (OsPath.join root filename) e) as Hb.
      rewrite H in Hb. specialize (Hb eq_refl). congruence. }
    destruct binary; [discriminate H |].
    apply bind_inv_Raise in H as [H | (t1 & text & t2 & _ & H & ->)].
    + right. apply (read_text_file_raises out w (OsPath.join root filename));
        [now rewrite H | assumption].
    + apply (count_and_print_raises out encoder text
               (PInfoFile (OsPath.join root filename))
               (fun n => record_text n stats)) in H as [[-> Henc] | Hout];
        [| now right].
      left. exists (t0 ++ t1), text. split; [now rewrite app_assoc | assumption].
Qed.

Lemma scan_files_raises (out : printed -> res unit) (w : World) (encoder : Encoding)
    (root : string) (files : list string) :
  forall (stats : Stats) (t : list event) (e : exn),
    Stdout.scan_files out w encoder root files stats = (t, Raise e) ->
    is_Exception e = true ->
    (exists t' text, t = t' ++ [EvEncode text] /\ encode encoder text = Raise e) \/
    refused out e.
Proof.
  induction files as [| filename rest IH]; intros stats t e H He; [discriminate H |].
  cbn in H.
  apply bind_inv_Raise in H as [H | (t1 & st1 & t2 & _ & H & ->)].
  - eapply scan_file_raises; eassumption.
  - destruct (IH _ _ _ H He) as [(t' & text & -> & Henc) | Hout]; [| now right].
    left. exists (t1 ++ t'), text. split; [now rewrite app_assoc | assumption].
Qed.

Lemma scan_walk_raises (out : printed -> res unit) (w : World) (encoder : Encoding)
    (triples : list (string * list string * list string)) :
  forall (stats : Stats) (t : list event) (e : exn),
    Stdout.scan_walk out w encoder triples stats = (t, Raise e) ->
    is_Exception e = true ->
    (exists t' text, t = t' ++ [EvEncode text] /\ encode encoder text = Raise e) \/
    refused out e.
Proof.
  induction triples as [| [[root dirs] files] rest IH]; intros stats t e H He;
    [discriminate H |].
  cbn in H.
  apply bind_inv_Raise in H as [H | (t1 & st1 & t2 & _ & H & ->)].
  - eapply scan_files_raises; eassumption.
  - destruct (IH _ _ _ H He) as [(t' & text & -> & Henc) | Hout]; [| now right].
    left. exists (t1 ++ t'), text. split; [now rewrite app_assoc | assumption].
Qed.

(** X5. An [Exception] that leaves the scan was raised either by
    [encoder.encode], and then the call of the encoder on the text of a
    file is the last thing the scan did, or by a [print], the standard
    output having refused the line. No [Exception] of opening, reading,
    decoding or parsing a file leaves the scan. *)
Theorem only_encoder_and_print_errors_leave_scan
    (out : printed -> res unit) (w : World) (encoder : Encoding) (base : string)
    (t : list event) (e : exn) :
  Stdout.scan_directory out w encoder base = (t, Raise e) ->
  is_Exception e = true ->
  (exists t' text, t = t' ++ [EvEncode text] /\ encode encoder text = Raise e) \/
  (exists p, out p = Raise e).
Proof.
  unfold Stdout.scan_directory. apply scan_walk_raises.
Qed.

Lemma only_encoder_and_print_errors_leave_scan_witness :
  (exists t' text,
     [ EvOpen "/corpus/good.pdf" "rb"; EvEncode (String "a" (String "010" "b"));
       EvPrint (PInfoFile "/corpus/good.pdf" 3);
       EvOpen "/corpus/scan.pdf" "rb"; EvPrint (PInfoFile "/corpus/scan.pdf" 0);
       EvOpen "/corpus/latin1.txt" "rb"; EvOpen "/corpus/latin1.txt" "r" ]
     = t' ++ [EvEncode text] /\
     encode Demo.o200k_base text
     = Raise (OtherError "UnicodeEncodeError"
                "'ascii' codec can't encode characters")) \/
  (exists p,
     Demo.ascii_stdout p
     = Raise (OtherError "UnicodeEncodeError"
                "'ascii' codec can't encode characters")).
Proof.
  apply (only_encoder_and_print_errors_leave_scan Demo.ascii_stdout
           Demo.world_corpus Demo.o200k_base "/corpus").
  - vm_compute. reflexivity.
  - reflexivity.
Defined.

(** *** Runs that complete *)

(** X19. When the base path exists, the tokenizer is resolved, no
    file operation is interrupted, the encoder accepts every text and
    the standard output takes every line, [main] ends normally: it
    prints the lines of the scan and then the summary of statistics in
    which [total_files] is [pdf_files] plus [text_files] and, together
    with [skipped_files], accounts for every file the walk yielded. *)
Theorem uninterrupted_run_completes
    (out : printed -> res unit) (w : World) (args : Args) (encoder : Encoding) :
  os_path_exists w (base_path args) = true ->
  resolve_encoder w (model args) = ([], Ret encoder) ->
  uninterrupted w ->
  accepts_all encoder ->
  accepts_every_line out ->
  exists t stats,
    Stdout.main out w args = (t ++ summary_lines stats, Ret tt) /\
    total_files stats = pdf_files stats + text_files stats /\
    total_files stats + skipped_files stats
      = length (walked_files
                  (os_walk (base_path args) (lookup_path w (base_path args)))).
Proof.
  intros Hex Hres Hw Henc Hout. rewrite main_accepts by assumption.
  destruct (scan_walk_returns w encoder
              (os_walk (base_path args) (lookup_path w (base_path args)))
              Hw Henc empty_stats) as (t & stats & Hscan).
  exists t, stats. split; [now apply (main_scanned w args encoder) |].
  apply (scan_walk_inv _ _ _ _ _ _ 0) in Hscan; [| repeat split].
  destruct Hscan as (H1 & H2 & H3). cbn in H3. lia.
Qed.

Lemma plain_world_uninterrupted : uninterrupted Demo.world_plain.
Proof.
  split; intros p; cbn.
  - repeat match goal with |- context [String.eqb ?a ?b] => destruct (String.eqb a b) end;
      intros e [=].
  - repeat match goal with |- context [String.eqb ?a ?b] => destruct (String.eqb a b) end;
      intros e [= <-]; reflexivity.
  - intros pages.
    repeat match goal with |- context [String.eqb ?a ?b] => destruct (String.eqb a b) end;
      intros [= <-]; repeat constructor; intros e [=].
  - repeat match goal with |- context [String.eqb ?a ?b] => destruct (String.eqb a b) end;
      intros e [= <-]; reflexivity.
Qed.

Lemma uninterrupted_run_completes_witness :
  exists t stats,
    Stdout.main Demo.accepting_stdout Demo.world_plain
      {| base_path := "/corpus"; model := "gpt-4o" |}
      = (t ++ summary_lines stats, Ret tt) /\
    total_files stats = pdf_files stats + text_files stats /\
    total_files stats + skipped_files stats
      = length (walked_files
                  (os_walk "/corpus" (lookup_path Demo.world_plain "/corpus"))).
Proof.
  apply (uninterrupted_run_completes Demo.accepting_stdout Demo.world_plain
           {| base_path := "/corpus"; model := "gpt-4o" |} Demo.plain_encoding).
  - reflexivity.
  - reflexivity.
  - exact plain_world_uninterrupted.
  - intros text. eexists. reflexivity.
  - intros p. reflexivity.
Defined.
